(** * d3p-protocol: the capability adapters, embedded and verified

    A shallow embedding of the four adapters of [examples/]
    ([d3p_openai_tool.py], [d3p_langchain_tool.py], [d3p_crewai_tool.py],
    [d3p_mcp_tool.py]): manifest loading, tool-descriptor building, the
    dispatcher with its payment-gating convention, and the service listing.

    Python values decoded from JSON are a first-order datatype; a [dict] is
    an insertion-ordered association list; exceptions are an error monad;
    the HTTP side is an explicit log of outbound requests together with an
    oracle that plays the remote host. *)

From Stdlib Require Import String Ascii List ZArith Bool Lia DecimalString.
Import ListNotations.
Local Open Scope string_scope.
Local Open Scope Z_scope.
Set Warnings "-register-all".

(* ===================================================================== *)
(** ** Python values *)
(* ===================================================================== *)

(** What [json.loads] produces.  Numbers are the integers ([int] is
    unbounded in Python, hence [Z]); [float] is left out of the model.
    A character of a [str] is one [ascii], that is a code point below 256. *)
Inductive json : Type :=
| JNull
| JBool (b : bool)
| JNum (z : Z)
| JStr (s : string)
| JArr (l : list json)
| JObj (d : list (string * json)).

(** A [dict] with [str] keys, in insertion order. *)
Definition dict := list (string * json).

Inductive exn : Type :=
| KeyError (k : string)
| AttributeError
| TypeError
| ValidationError
| JSONDecodeError
| HTTPError (status : Z)
| ConnectionError
| Timeout
| RecursionError
| ValueError.

(** The outcome of a Python expression: a value, or a raised exception. *)
Inductive result (A : Type) : Type :=
| Ok (a : A)
| Raise (e : exn).
Arguments Ok {A} a.
Arguments Raise {A} e.

Definition bind {A B} (r : result A) (k : A -> result B) : result B :=
  match r with
  | Ok a => k a
  | Raise e => Raise e
  end.

Declare Scope py_scope.
Delimit Scope py_scope with py.
Notation "x <- c ;; k" := (bind c (fun x => k))
  (at level 61, c at next level, right associativity) : py_scope.

Fixpoint mapM {A B} (f : A -> result B) (l : list A) : result (list B) :=
  match l with
  | [] => Ok []
  | a :: l' =>
      match f a with
      | Raise e => Raise e
      | Ok b => match mapM f l' with
                | Raise e => Raise e
                | Ok bs => Ok (b :: bs)
                end
      end
  end.

(** *** dict operations *)

Fixpoint dict_get (k : string) (d : dict) : option json :=
  match d with
  | [] => None
  | (k', v) :: d' => if String.eqb k k' then Some v else dict_get k d'
  end.

(** [d[k] = v]: an existing key keeps its position, a new one goes last. *)
Fixpoint dict_set (k : string) (v : json) (d : dict) : dict :=
  match d with
  | [] => [(k, v)]
  | (k', v') :: d' =>
      if String.eqb k k' then (k, v) :: d' else (k', v') :: dict_set k v d'
  end.

Definition keys (d : dict) : list string := map fst d.

(** [o.get(k, default)]; only a dict has the method. *)
Definition py_get (o : json) (k : string) (default : json) : result json :=
  match o with
  | JObj d => Ok (match dict_get k d with Some v => v | None => default end)
  | _ => Raise AttributeError
  end.

(** [o[k]] with a [str] subscript. *)
Definition py_getitem (o : json) (k : string) : result json :=
  match o with
  | JObj d => match dict_get k d with
              | Some v => Ok v
              | None => Raise (KeyError k)
              end
  | _ => Raise TypeError
  end.

(** [o.items()]. *)
Definition py_items (o : json) : result dict :=
  match o with
  | JObj d => Ok d
  | _ => Raise AttributeError
  end.

(** [for x in o]. *)
Definition py_iter (o : json) : result (list json) :=
  match o with
  | JArr l => Ok l
  | JObj d => Ok (map JStr (keys d))
  | JStr s => Ok (map (fun c => JStr (String c EmptyString)) (list_ascii_of_string s))
  | _ => Raise TypeError
  end.

(** Truth value, as tested by [not], [or] and [if]. *)
Definition truthy (o : json) : bool :=
  match o with
  | JNull => false
  | JBool b => b
  | JNum z => negb (z =? 0)
  | JStr s => match s with EmptyString => false | _ => true end
  | JArr l => match l with [] => false | _ => true end
  | JObj d => match d with [] => false | _ => true end
  end.

(** [s or default] on strings. *)
Definition str_or (s default : string) : string :=
  match s with EmptyString => default | _ => s end.

(** [e.startswith(p)]; only a [str] has the method. *)
Definition py_startswith (e : json) (p : string) : result bool :=
  match e with
  | JStr s => Ok (String.prefix p s)
  | _ => Raise AttributeError
  end.

(** [s[:n]]. *)
Definition slice_to (n : nat) (s : string) : string := substring 0 n s.

(** *** [str()] and [repr()], as used by f-strings *)

Definition string_of_Z (z : Z) : string := NilZero.string_of_int (Z.to_int z).

Definition hex_digit (n : N) : ascii :=
  match n with
  | 0 => "0" | 1 => "1" | 2 => "2" | 3 => "3" | 4 => "4" | 5 => "5"
  | 6 => "6" | 7 => "7" | 8 => "8" | 9 => "9" | 10 => "a" | 11 => "b"
  | 12 => "c" | 13 => "d" | 14 => "e" | _ => "f"
  end%N%char.

Definition hex2 (c : ascii) : string :=
  let n := N_of_ascii c in
  String (hex_digit (N.div n 16)) (String (hex_digit (N.modulo n 16)) EmptyString).

Definition printable (c : ascii) : bool :=
  let n := N_of_ascii c in
  ((32 <=? n) && (n <? 127) || (161 <=? n) && negb (n =? 173))%N.

Fixpoint contains (c : ascii) (s : string) : bool :=
  match s with
  | EmptyString => false
  | String c' s' => Ascii.eqb c c' || contains c s'
  end.

Definition repr_char (quote c : ascii) : string :=
  if Ascii.eqb c quote || Ascii.eqb c "\"%char then String "\"%char (String c EmptyString)
  else if Ascii.eqb c "009"%char then "\t"
  else if Ascii.eqb c "010"%char then "\n"
  else if Ascii.eqb c "013"%char then "\r"
  else if printable c then String c EmptyString
  else "\x" ++ hex2 c.

Fixpoint repr_chars (quote : ascii) (s : string) : string :=
  match s with
  | EmptyString => EmptyString
  | String c s' => repr_char quote c ++ repr_chars quote s'
  end.

(** The double quote character. *)
Definition dquote : ascii := "034"%char.

Definition repr_str (s : string) : string :=
  let quote := if contains "'"%char s && negb (contains dquote s)
               then dquote else "'"%char in
  String quote (repr_chars quote s ++ String quote EmptyString).

Fixpoint py_repr (o : json) : string :=
  match o with
  | JNull => "None"
  | JBool true => "True"
  | JBool false => "False"
  | JNum z => string_of_Z z
  | JStr s => repr_str s
  | JArr l => "[" ++ String.concat ", " (map py_repr l) ++ "]"
  | JObj d =>
      "{" ++ String.concat ", "
               (map (fun kv => repr_str (fst kv) ++ ": " ++ py_repr (snd kv)) d)
          ++ "}"
  end.

(** [f"{o}"]. *)
Definition py_str (o : json) : string :=
  match o with
  | JStr s => s
  | _ => py_repr o
  end.

(* ===================================================================== *)
(** ** The [json] module and the HTTP side *)
(* ===================================================================== *)

(** [json.loads], [json.dumps] and [json.dumps(_, indent=n)] belong to the
    Python library; the adapters are embedded over any implementation of
    them.  [json_decode s] is the outcome of [json.loads(s)]: the decoded
    value, or the exception it raises, which is [JSONDecodeError] on a text
    it rejects and can be another one ([RecursionError] on a text nested
    too deep, [ValueError] on an integer literal over the digit limit). *)
Class JsonLib : Type := {
  json_decode : string -> result json;
  json_dumps : json -> string;
  json_dumps_indent : nat -> json -> string
}.

(** The value [json.loads(s)] returns, when it returns one; [None] when it
    raises, whatever the exception. *)
Definition json_loads `{JsonLib} (s : string) : option json :=
  match json_decode s with
  | Ok j => Some j
  | Raise _ => None
  end.

Inductive method : Type := GET | POST.

(** One call of [requests.get] or [requests.post]. *)
Record request : Type := {
  req_method : method;
  req_url : string;
  req_json : option json;
  req_headers : list (string * string);
  req_timeout : Z
}.

Record response : Type := {
  status_code : Z;
  text : string
}.

(** What the network does with a request: it answers, or [requests]
    raises (connection refused, timeout, ...). *)
Inductive reply : Type :=
| Answer (r : response)
| Failure (e : exn).

(** The remote side, which may depend on the requests already made. *)
Definition network := list request -> request -> reply.

(** A computation that talks to the network: given the remote side and the
    log of the requests made so far, an outcome and the extended log. *)
Definition IO (A : Type) : Type := network -> list request -> result A * list request.

Definition io_ret {A} (a : A) : IO A := fun _ log => (Ok a, log).

Definition io_raise {A} (e : exn) : IO A := fun _ log => (Raise e, log).

Definition io_lift {A} (r : result A) : IO A := fun _ log => (r, log).

Definition io_bind {A B} (c : IO A) (k : A -> IO B) : IO B :=
  fun net log =>
    match c net log with
    | (Ok a, log') => k a net log'
    | (Raise e, log') => (Raise e, log')
    end.

Declare Scope io_scope.
Delimit Scope io_scope with io.
Notation "x <- c ;; k" := (io_bind c (fun x => k))
  (at level 61, c at next level, right associativity) : io_scope.

(** Send one request; the log grows by exactly that request. *)
Definition http (req : request) : IO response :=
  fun net log =>
    (match net log req with
     | Answer r => Ok r
     | Failure e => Raise e
     end, (log ++ [req])%list).

(** [requests.get(url, timeout=t)]. *)
Definition requests_get (url : string) (timeout : Z) : IO response :=
  http {| req_method := GET; req_url := url; req_json := None;
          req_headers := []; req_timeout := timeout |}.

(** [requests.post(url, json=data, headers=headers, timeout=t)]. *)
Definition requests_post (url : string) (data : json)
    (headers : list (string * string)) (timeout : Z) : IO response :=
  http {| req_method := POST; req_url := url; req_json := Some data;
          req_headers := headers; req_timeout := timeout |}.

(** [resp.raise_for_status()]. *)
Definition raise_for_status (resp : response) : result unit :=
  if (400 <=? status_code resp) && (status_code resp <? 600)
  then Raise (HTTPError (status_code resp)) else Ok tt.

(** [resp.json()]: [requests] raises its own [JSONDecodeError] for the
    one of [json], and lets any other exception through. *)
Definition resp_json `{JsonLib} (resp : response) : result json :=
  json_decode (text resp).

(** [headers = {"Content-Type": "application/json"}], then
    [if mock_payments: headers["X-D3P-Cert-Test"] = "true"]. *)
Definition call_headers (mock_payments : bool) : list (string * string) :=
  let headers := [("Content-Type", "application/json")] in
  if mock_payments then (headers ++ [("X-D3P-Cert-Test", "true")])%list else headers.

(** [_fetch_manifest(url)], the same in the four files. *)
Definition _fetch_manifest `{JsonLib} (url : string) : IO json :=
  (resp <- requests_get url 10 ;;
   _ <- io_lift (raise_for_status resp) ;;
   doc <- io_lift (resp_json resp) ;;
   io_lift (py_getitem doc "services"))%io.

(** [svc.get("pricing", {}).get("sats", 0)]. *)
Definition pricing_sats_of (svc : json) : result json :=
  (pricing <- py_get svc "pricing" (JObj []) ;;
   py_get pricing "sats" (JNum 0))%py.

(** The body every adapter returns on a 402 in live mode. *)
Definition payment_required (sats : json) : json :=
  JObj [("error", JStr "L402 payment required");
        ("status", JNum 402);
        ("message", JStr ("Service requires " ++ py_str sats ++ " sats via Lightning"))].

(* ===================================================================== *)
(** ** d3p_openai_tool.py *)
(* ===================================================================== *)

Module OpenAI.
Section Adapter.
Context `{JsonLib}.

Record D3POpenAI : Type := {
  base_url : string;
  mock_payments : bool;
  _services : dict
}.

(** One turn of the loop of [__init__]: [services] is [self._services]. *)
Definition add_service (base_url : string) (services : dict) (svc : json)
  : result dict :=
  (sid <- py_getitem svc "service_id" ;;
   endpoint <- py_get svc "endpoint" (JStr ("/api/services/" ++ py_str sid)) ;;
   absolute <- py_startswith endpoint "http" ;;
   let endpoint := if negb absolute then JStr (base_url ++ py_str endpoint)
                   else endpoint in
   entries <- py_items svc ;;
   Ok (dict_set ("d3p_" ++ py_str sid)
                (JObj (dict_set "_endpoint" endpoint entries)) services))%py.

Fixpoint load_services (base_url : string) (services : dict) (manifest : list json)
  : result dict :=
  match manifest with
  | [] => Ok services
  | svc :: rest =>
      (services' <- add_service base_url services svc ;;
       load_services base_url services' rest)%py
  end.

(** [D3POpenAI(manifest_url, base_url, mock_payments)]. *)
Definition init (manifest_url base_url : string) (mock_payments : bool)
  : IO D3POpenAI :=
  (fetched <- _fetch_manifest manifest_url ;;
   manifest <- io_lift (py_iter fetched) ;;
   services <- io_lift (load_services base_url [] manifest) ;;
   io_ret {| base_url := base_url; mock_payments := mock_payments;
             _services := services |})%io.

(** One turn of the loop of [tool_definitions]. *)
Definition tool_definition (func_name : string) (svc : json) : result json :=
  (in_schema <- py_get svc "input_schema"
                  (JObj [("type", JStr "object"); ("properties", JObj [])]) ;;
   properties <- py_get in_schema "properties" (JObj []) ;;
   properties' <- py_get in_schema "properties" (JObj []) ;;
   declared <- py_items properties' ;;
   let params := JObj [("type", JStr "object");
                       ("properties", properties);
                       ("required", JArr (map JStr (keys declared)))] in
   sats <- pricing_sats_of svc ;;
   cat <- py_get svc "capability_category" (JStr EmptyString) ;;
   description <- py_get svc "description" (JStr EmptyString) ;;
   Ok (JObj [("type", JStr "function");
             ("function",
              JObj [("name", JStr func_name);
                    ("description",
                     JStr (py_str description ++ " [" ++ py_str cat ++ ", "
                             ++ py_str sats ++ " sats]"));
                    ("parameters", params)])]))%py.

Definition tool_definitions (self : D3POpenAI) : result (list json) :=
  mapM (fun item => tool_definition (fst item) (snd item)) (_services self).

Definition execute (self : D3POpenAI) (function_name arguments : string)
  : IO string :=
  let unknown :=
    io_ret (json_dumps (JObj [("error", JStr ("Unknown function: " ++ function_name))])) in
  match dict_get function_name (_services self) with
  | None => unknown
  | Some svc =>
      if negb (truthy svc) then unknown
      else
        match json_decode arguments with
        | Raise JSONDecodeError =>
            io_ret (json_dumps (JObj [("error", JStr "Invalid JSON arguments")]))
        | Raise e => io_raise e
        | Ok data =>
            let headers := call_headers (mock_payments self) in
            (endpoint <- io_lift (py_getitem svc "_endpoint") ;;
             url <- io_lift (match endpoint with
                             | JStr u => Ok u
                             | _ => Raise TypeError
                             end) ;;
             resp <- requests_post url data headers 15 ;;
             if (status_code resp =? 402) && negb (mock_payments self)
             then
               sats <- io_lift (pricing_sats_of svc) ;;
               io_ret (json_dumps (payment_required sats))
             else
               match json_loads (text resp) with
               | Some body => io_ret (json_dumps body)
               | None => io_ret (slice_to 500 (text resp))
               end)%io
        end
  end.

(** One element of the comprehension of [list_services]. *)
Definition service_summary (name : string) (svc : json) : result json :=
  (sid <- py_getitem svc "service_id" ;;
   nm <- py_get svc "name" (JStr EmptyString) ;;
   cat <- py_get svc "capability_category" (JStr EmptyString) ;;
   sats <- pricing_sats_of svc ;;
   Ok (JObj [("function", JStr name);
             ("service_id", sid);
             ("name", nm);
             ("category", cat);
             ("sats", sats)]))%py.

Definition list_services (self : D3POpenAI) : result (list json) :=
  mapM (fun item => service_summary (fst item) (snd item)) (_services self).

End Adapter.
End OpenAI.

(* ===================================================================== *)
(** ** d3p_langchain_tool.py *)
(* ===================================================================== *)

(** [super().__init__(...)] checks the declared field types
    ([service_id: str], [pricing_sats: int]).  The model accepts exactly an
    [int] for [pricing_sats]; the lax coercions of pydantic (a numeric
    string, a bool) concern values the manifest format does not produce. *)
Definition validate_str (o : json) : result string :=
  match o with
  | JStr s => Ok s
  | _ => Raise ValidationError
  end.

Definition validate_int (o : json) : result Z :=
  match o with
  | JNum z => Ok z
  | _ => Raise ValidationError
  end.

(** [manifest_entry or {}]. *)
Definition entry_or_empty (manifest_entry : option json) : json :=
  match manifest_entry with
  | Some e => if truthy e then e else JObj []
  | None => JObj []
  end.

Module LangChain.
Section Adapter.
Context `{JsonLib}.

Record D3PTool : Type := {
  name : string;
  description : string;
  service_id : string;
  endpoint : string;
  pricing_sats : Z;
  mock_payments : bool;
  base_url : string;
  service_schema : json
}.

(** [D3PTool(service_id, manifest_entry, mock_payments, base_url)]. *)
Definition D3PTool_init (service_id : json) (manifest_entry : option json)
    (mock_payments : bool) (base_url : string) : result D3PTool :=
  (let svc := entry_or_empty manifest_entry in
   endpoint <- py_get svc "endpoint" (JStr ("/api/services/" ++ py_str service_id)) ;;
   absolute <- py_startswith endpoint "http" ;;
   let full_url := if absolute then py_str endpoint
                   else base_url ++ py_str endpoint in
   svc_name <- py_get svc "name" service_id ;;
   svc_desc <- py_get svc "description"
                 (JStr ("Call the " ++ py_str service_id ++ " d3p service")) ;;
   category <- py_get svc "capability_category" (JStr EmptyString) ;;
   sats <- pricing_sats_of svc ;;
   in_schema <- py_get svc "input_schema" (JObj []) ;;
   props <- py_get in_schema "properties" (JObj []) ;;
   declared <- py_items props ;;
   parts <- mapM (fun kv =>
                    ty <- py_get (snd kv) "type" (JStr EmptyString) ;;
                    Ok (fst kv ++ " (" ++ py_str ty ++ ")")) declared ;;
   let fields := String.concat ", " parts in
   sid <- validate_str service_id ;;
   price <- validate_int sats ;;
   Ok {| name := "d3p_" ++ py_str service_id;
         description :=
           py_str svc_desc ++ " [" ++ py_str category ++ ", " ++ py_str sats
             ++ " sats]. "
             ++ "Input fields: " ++ str_or fields "see docs" ++ ". "
             ++ "Pass a JSON string as payload.";
         service_id := sid;
         endpoint := full_url;
         pricing_sats := price;
         mock_payments := mock_payments;
         base_url := base_url;
         service_schema := in_schema |})%py.

Definition _run (self : D3PTool) (payload : string) : IO string :=
  match json_decode payload with
  | Raise JSONDecodeError =>
      io_ret (json_dumps (JObj [("error", JStr "Invalid JSON payload")]))
  | Raise e => io_raise e
  | Ok data =>
      let headers := call_headers (mock_payments self) in
      (resp <- requests_post (endpoint self) data headers 15 ;;
       if (status_code resp =? 402) && negb (mock_payments self)
       then io_ret (json_dumps (payment_required (JNum (pricing_sats self))))
       else
         match json_loads (text resp) with
         | Some body => io_ret (json_dumps body)
         | None => io_ret (slice_to 500 (text resp))
         end)%io
  end.

(** The comprehension of [from_manifest]. *)
Definition tools_of (manifest : list json) (mock_payments : bool)
    (base_url : string) : result (list D3PTool) :=
  mapM (fun svc =>
          (sid <- py_getitem svc "service_id" ;;
           D3PTool_init sid (Some svc) mock_payments base_url)%py) manifest.

Definition from_manifest (url : string) (mock_payments : bool) (base_url : string)
  : IO (list D3PTool) :=
  (fetched <- _fetch_manifest url ;;
   services <- io_lift (py_iter fetched) ;;
   io_lift (tools_of services mock_payments base_url))%io.

End Adapter.
End LangChain.

(* ===================================================================== *)
(** ** d3p_crewai_tool.py *)
(* ===================================================================== *)

Module CrewAI.
Section Adapter.
Context `{JsonLib}.

(** The fields as the constructor passes them to [super().__init__]; what
    a release of crewai makes of [description] after that (some rewrite
    it) is not part of this record. *)
Record D3PServiceTool : Type := {
  name : string;
  description : string;
  service_id : string;
  endpoint : string;
  pricing_sats : Z;
  mock_payments : bool;
  base_url : string;
  service_schema : json
}.

(** [D3PServiceTool(service_id, manifest_entry, mock_payments, base_url)]. *)
Definition D3PServiceTool_init (service_id : json) (manifest_entry : option json)
    (mock_payments : bool) (base_url : string) : result D3PServiceTool :=
  (let svc := entry_or_empty manifest_entry in
   endpoint <- py_get svc "endpoint" (JStr ("/api/services/" ++ py_str service_id)) ;;
   absolute <- py_startswith endpoint "http" ;;
   let full_url := if absolute then py_str endpoint
                   else base_url ++ py_str endpoint in
   svc_name <- py_get svc "name" service_id ;;
   svc_desc <- py_get svc "description"
                 (JStr ("Call the " ++ py_str service_id ++ " d3p service")) ;;
   category <- py_get svc "capability_category" (JStr EmptyString) ;;
   sats <- pricing_sats_of svc ;;
   in_schema <- py_get svc "input_schema" (JObj []) ;;
   props <- py_get in_schema "properties" (JObj []) ;;
   declared <- py_items props ;;
   parts <- mapM (fun kv =>
                    ty <- py_get (snd kv) "type" (JStr EmptyString) ;;
                    Ok (fst kv ++ " (" ++ py_str ty ++ ")")) declared ;;
   let fields := String.concat ", " parts in
   sid <- validate_str service_id ;;
   price <- validate_int sats ;;
   Ok {| name := "d3p_" ++ py_str service_id;
         description :=
           py_str svc_desc ++ " [" ++ py_str category ++ ", " ++ py_str sats
             ++ " sats]. "
             ++ "Input fields: " ++ str_or fields "see docs" ++ ". "
             ++ "Pass a JSON string as payload.";
         service_id := sid;
         endpoint := full_url;
         pricing_sats := price;
         mock_payments := mock_payments;
         base_url := base_url;
         service_schema := in_schema |})%py.

Definition _run (self : D3PServiceTool) (payload : string) : IO string :=
  match json_decode payload with
  | Raise JSONDecodeError =>
      io_ret (json_dumps (JObj [("error", JStr "Invalid JSON payload")]))
  | Raise e => io_raise e
  | Ok data =>
      let headers := call_headers (mock_payments self) in
      (resp <- requests_post (endpoint self) data headers 15 ;;
       if (status_code resp =? 402) && negb (mock_payments self)
       then io_ret (json_dumps (payment_required (JNum (pricing_sats self))))
       else
         match json_loads (text resp) with
         | Some body => io_ret (json_dumps body)
         | None => io_ret (slice_to 500 (text resp))
         end)%io
  end.

(** The comprehension of [discover_d3p_tools]. *)
Definition tools_of (manifest : list json) (mock_payments : bool)
    (base_url : string) : result (list D3PServiceTool) :=
  mapM (fun svc =>
          (sid <- py_getitem svc "service_id" ;;
           D3PServiceTool_init sid (Some svc) mock_payments base_url)%py) manifest.

Definition discover_d3p_tools (url : string) (mock_payments : bool)
    (base_url : string) : IO (list D3PServiceTool) :=
  (fetched <- _fetch_manifest url ;;
   services <- io_lift (py_iter fetched) ;;
   io_lift (tools_of services mock_payments base_url))%io.

End Adapter.
End CrewAI.

(* ===================================================================== *)
(** ** d3p_mcp_tool.py *)
(* ===================================================================== *)

(** [_services] is keyed by the raw [service_id]: a key must be hashable,
    and keys are compared with [==] ([True == 1]). *)
Definition hashable (k : json) : bool :=
  match k with
  | JArr _ | JObj _ => false
  | _ => true
  end.

Definition key_eqb (a b : json) : bool :=
  match a, b with
  | JNull, JNull => true
  | JStr s, JStr t => (s =? t)%string
  | JNum x, JNum y => x =? y
  | JBool x, JBool y => Bool.eqb x y
  | JBool x, JNum y | JNum y, JBool x => y =? (if x then 1 else 0)
  | _, _ => false
  end.

Fixpoint table_set (k v : json) (t : list (json * json)) : list (json * json) :=
  match t with
  | [] => [(k, v)]
  | (k', v') :: t' =>
      if key_eqb k k' then (k', v) :: t' else (k', v') :: table_set k v t'
  end.

Module MCP.
Section Adapter.
Context `{JsonLib}.
(** The module constants, read from the environment at import. *)
Variables (MANIFEST_URL BASE_URL : string) (MOCK_PAYMENTS : bool).

Definition _call_service (endpoint : string) (data : json) (sats : json)
  : IO json :=
  let headers := call_headers MOCK_PAYMENTS in
  (resp <- requests_post endpoint data headers 15 ;;
   if (status_code resp =? 402) && negb MOCK_PAYMENTS
   then io_ret (payment_required sats)
   else
     match json_loads (text resp) with
     | Some body => io_ret body
     | None => io_ret (JObj [("raw", JStr (slice_to 500 (text resp)));
                             ("status", JNum (status_code resp))])
     end)%io.

(** A Python function object: what the host calls, and its metadata. *)
Record function : Type := {
  __name__ : string;
  __doc__ : string;
  call : string -> IO string
}.

Definition _make_tool (sid : json) (endpoint : string) (sats : json)
    (desc param_doc : string) : function :=
  let tool_fn (params : string) : IO string :=
    match json_decode params with
    | Raise JSONDecodeError => io_ret (json_dumps (JObj [("error", JStr "Invalid JSON")]))
    | Raise e => io_raise e
    | Ok data =>
        (r <- _call_service endpoint data sats ;;
         io_ret (json_dumps r))%io
    end in
  {| __name__ := "d3p_" ++ py_str sid;
     __doc__ := desc ++ ". Input (JSON string): " ++ str_or param_doc "see docs";
     call := tool_fn |}.

(** One call [mcp.tool(name=..., description=...)(fn)]. *)
Record registration : Type := {
  tool_name : string;
  tool_description : string;
  tool_fn : function
}.

(** The module state the import builds: [_services], and in [mcp_tools]
    the calls of [mcp.tool], in order.  What the server keeps of two calls
    under one name is for FastMCP to say (it keeps the first): the calls
    are the tools of the server when the names are distinct. *)
Record module_state : Type := {
  _services : list (json * json);
  mcp_tools : list registration
}.

(** One turn of the module-level loop. *)
Definition register_service (st : module_state) (_svc : json)
  : result module_state :=
  (_sid <- py_getitem _svc "service_id" ;;
   _endpoint <- py_get _svc "endpoint" (JStr ("/api/services/" ++ py_str _sid)) ;;
   absolute <- py_startswith _endpoint "http" ;;
   let _endpoint := if negb absolute then BASE_URL ++ py_str _endpoint
                    else py_str _endpoint in
   entries <- py_items _svc ;;
   let _svc := JObj (dict_set "_endpoint" (JStr _endpoint) entries) in
   services <- (if hashable _sid then Ok (table_set _sid _svc (_services st))
                else Raise TypeError) ;;
   _sats <- pricing_sats_of _svc ;;
   _cat <- py_get _svc "capability_category" (JStr EmptyString) ;;
   description <- py_get _svc "description" (JStr EmptyString) ;;
   let _desc := py_str description ++ " [" ++ py_str _cat ++ ", "
                  ++ py_str _sats ++ " sats]" in
   in_schema <- py_get _svc "input_schema" (JObj []) ;;
   _props <- py_get in_schema "properties" (JObj []) ;;
   declared <- py_items _props ;;
   docs <- mapM (fun kv =>
                   ty <- py_get (snd kv) "type" (JStr EmptyString) ;;
                   d <- py_get (snd kv) "description" ty ;;
                   Ok (fst kv ++ ": " ++ py_str d)) declared ;;
   let _param_doc := String.concat "; " docs in
   Ok {| _services := services;
         mcp_tools :=
           (mcp_tools st ++
              [{| tool_name := "d3p_" ++ py_str _sid;
                  tool_description := _desc;
                  tool_fn := _make_tool _sid _endpoint _sats _desc _param_doc |}])%list
      |})%py.

Fixpoint register_all (st : module_state) (manifest : list json)
  : result module_state :=
  match manifest with
  | [] => Ok st
  | svc :: rest =>
      (st' <- register_service st svc ;;
       register_all st' rest)%py
  end.

(** Importing the module: fetch, then the loop. *)
Definition import : IO module_state :=
  (fetched <- _fetch_manifest MANIFEST_URL ;;
   manifest <- io_lift (py_iter fetched) ;;
   io_lift (register_all {| _services := []; mcp_tools := [] |} manifest))%io.

(** The comprehension of [list_services]. *)
Definition summary_of (s : json) : result json :=
  (sid <- py_getitem s "service_id" ;;
   nm <- py_get s "name" (JStr EmptyString) ;;
   cat <- py_get s "capability_category" (JStr EmptyString) ;;
   sats <- pricing_sats_of s ;;
   description <- py_get s "description" (JStr EmptyString) ;;
   Ok (JObj [("service_id", sid);
             ("name", nm);
             ("category", cat);
             ("sats", sats);
             ("description", description)]))%py.

Definition list_services (st : module_state) : result string :=
  (summary <- mapM summary_of (map snd (_services st)) ;;
   Ok (json_dumps_indent 2 (JArr summary)))%py.

End Adapter.
End MCP.

(* ===================================================================== *)
(** ** A reference [json] codec *)
(* ===================================================================== *)

(** An executable [JsonLib] for the float-free fragment, with the defaults
    of Python ([ensure_ascii], separators [", "] and [": "], last
    duplicate key wins).  The theorems below hold for every [JsonLib]; this
    one runs the adapters on concrete inputs. *)
Module RefJson.

Definition escape_char (c : ascii) : string :=
  let n := N_of_ascii c in
  if Ascii.eqb c dquote then String "\"%char (String dquote EmptyString)
  else if Ascii.eqb c "\"%char then "\\"
  else if Ascii.eqb c "010"%char then "\n"
  else if Ascii.eqb c "013"%char then "\r"
  else if Ascii.eqb c "009"%char then "\t"
  else if Ascii.eqb c "008"%char then "\b"
  else if Ascii.eqb c "012"%char then "\f"
  else if ((32 <=? n) && (n <? 127))%N then String c EmptyString
  else "\u00" ++ hex2 c.

Fixpoint escape (s : string) : string :=
  match s with
  | EmptyString => EmptyString
  | String c s' => escape_char c ++ escape s'
  end.

Definition quoted (s : string) : string :=
  String dquote (escape s ++ String dquote EmptyString).

Fixpoint dumps (j : json) : string :=
  match j with
  | JNull => "null"
  | JBool true => "true"
  | JBool false => "false"
  | JNum z => string_of_Z z
  | JStr s => quoted s
  | JArr l => "[" ++ String.concat ", " (map dumps l) ++ "]"
  | JObj d =>
      "{" ++ String.concat ", "
               (map (fun kv => quoted (fst kv) ++ ": " ++ dumps (snd kv)) d)
          ++ "}"
  end.

Fixpoint spaces (n : nat) : string :=
  match n with
  | O => EmptyString
  | S n' => String " "%char (spaces n')
  end.

Definition newline_indent (indent level : nat) : string :=
  String "010"%char (spaces (indent * level)).

Fixpoint dumps_at (indent level : nat) (j : json) : string :=
  match j with
  | JArr [] => "[]"
  | JArr l =>
      "[" ++ newline_indent indent (S level)
          ++ String.concat ("," ++ newline_indent indent (S level))
               (map (dumps_at indent (S level)) l)
          ++ newline_indent indent level ++ "]"
  | JObj [] => "{}"
  | JObj d =>
      "{" ++ newline_indent indent (S level)
          ++ String.concat ("," ++ newline_indent indent (S level))
               (map (fun kv => quoted (fst kv) ++ ": "
                                 ++ dumps_at indent (S level) (snd kv)) d)
          ++ newline_indent indent level ++ "}"
  | _ => dumps j
  end.

Definition dumps_indent (indent : nat) (j : json) : string := dumps_at indent 0 j.

(** The decoder: recursive descent, with fuel for the nesting. *)

Definition is_ws (c : ascii) : bool :=
  Ascii.eqb c " "%char || Ascii.eqb c "009"%char || Ascii.eqb c "010"%char
  || Ascii.eqb c "013"%char.

Fixpoint skip_ws (s : string) : string :=
  match s with
  | String c s' => if is_ws c then skip_ws s' else s
  | EmptyString => s
  end.

Definition digit_of (c : ascii) : option Z :=
  let n := N_of_ascii c in
  if ((48 <=? n) && (n <=? 57))%N then Some (Z.of_N (n - 48)) else None.

Fixpoint digits (acc : Z) (s : string) : Z * string :=
  match s with
  | String c s' =>
      match digit_of c with
      | Some d => digits (10 * acc + d) s'
      | None => (acc, s)
      end
  | EmptyString => (acc, s)
  end.

(** An optional minus sign, then 0 or a digit string without a leading 0;
    a fraction or an exponent makes a float. *)
Definition parse_int (s : string) : option (Z * string) :=
  let (neg, s1) := match s with
                   | String "-"%char s' => (true, s')
                   | _ => (false, s)
                   end in
  match s1 with
  | String c s2 =>
      match digit_of c with
      | None => None
      | Some d =>
          let (n, rest) := if d =? 0 then (0, s2) else digits d s2 in
          match rest with
          | String "."%char _ | String "e"%char _ | String "E"%char _ => None
          | _ => Some (if neg then - n else n, rest)
          end
      end
  | EmptyString => None
  end.

Definition hex_of (c : ascii) : option N :=
  let n := N_of_ascii c in
  if ((48 <=? n) && (n <=? 57))%N then Some (n - 48)%N
  else if ((97 <=? n) && (n <=? 102))%N then Some (n - 87)%N
  else if ((65 <=? n) && (n <=? 70))%N then Some (n - 55)%N
  else None.

(** The text after an opening quote, up to the closing one. *)
Fixpoint parse_chars (s : string) : option (string * string) :=
  match s with
  | EmptyString => None
  | String c s' =>
      if Ascii.eqb c dquote then Some (EmptyString, s')
      else if (N_of_ascii c <? 32)%N then None
      else if Ascii.eqb c "\"%char then
        match s' with
        | String "u"%char (String a (String b (String x (String y s'')))) =>
            match hex_of a, hex_of b, hex_of x, hex_of y with
            | Some 0%N, Some 0%N, Some h, Some l =>
                match parse_chars s'' with
                | Some (t, r) => Some (String (ascii_of_N (16 * h + l)) t, r)
                | None => None
                end
            | _, _, _, _ => None
            end
        | String e s'' =>
            let plain (d : ascii) :=
              match parse_chars s'' with
              | Some (t, r) => Some (String d t, r)
              | None => None
              end in
            if Ascii.eqb e dquote then plain dquote
            else if Ascii.eqb e "\"%char then plain "\"%char
            else if Ascii.eqb e "/"%char then plain "/"%char
            else if Ascii.eqb e "b"%char then plain "008"%char
            else if Ascii.eqb e "f"%char then plain "012"%char
            else if Ascii.eqb e "n"%char then plain "010"%char
            else if Ascii.eqb e "r"%char then plain "013"%char
            else if Ascii.eqb e "t"%char then plain "009"%char
            else None
        | EmptyString => None
        end
      else
        match parse_chars s' with
        | Some (t, r) => Some (String c t, r)
        | None => None
        end
  end.

Definition strip (p s : string) : option string :=
  if String.prefix p s
  then Some (substring (String.length p) (String.length s - String.length p) s)
  else None.

Fixpoint parse_value (fuel : nat) (s : string) : option (json * string) :=
  match fuel with
  | O => None
  | S fuel' =>
      match s with
      | EmptyString => None
      | String c s' =>
          if Ascii.eqb c dquote then
            match parse_chars s' with
            | Some (t, r) => Some (JStr t, r)
            | None => None
            end
          else if Ascii.eqb c "["%char then
            match skip_ws s' with
            | String "]"%char r => Some (JArr [], r)
            | s'' => match parse_elements fuel' s'' with
                     | Some (l, r) => Some (JArr l, r)
                     | None => None
                     end
            end
          else if Ascii.eqb c "{"%char then
            match skip_ws s' with
            | String "}"%char r => Some (JObj [], r)
            | s'' => match parse_members fuel' s'' with
                     | Some (kvs, r) =>
                         Some (JObj (fold_left
                                       (fun d kv => dict_set (fst kv) (snd kv) d)
                                       kvs []), r)
                     | None => None
                     end
            end
          else
            match strip "null" s, strip "true" s, strip "false" s with
            | Some r, _, _ => Some (JNull, r)
            | _, Some r, _ => Some (JBool true, r)
            | _, _, Some r => Some (JBool false, r)
            | _, _, _ => match parse_int s with
                         | Some (z, r) => Some (JNum z, r)
                         | None => None
                         end
            end
      end
  end
with parse_elements (fuel : nat) (s : string) : option (list json * string) :=
  match fuel with
  | O => None
  | S fuel' =>
      match parse_value fuel' s with
      | None => None
      | Some (v, r) =>
          match skip_ws r with
          | String "]"%char r' => Some ([v], r')
          | String ","%char r' =>
              match parse_elements fuel' (skip_ws r') with
              | Some (l, r'') => Some (v :: l, r'')
              | None => None
              end
          | _ => None
          end
      end
  end
with parse_members (fuel : nat) (s : string)
  : option (list (string * json) * string) :=
  match fuel with
  | O => None
  | S fuel' =>
      match s with
      | String c s' =>
          if Ascii.eqb c dquote then
            match parse_chars s' with
            | None => None
            | Some (k, r) =>
                match skip_ws r with
                | String ":"%char r1 =>
                    match parse_value fuel' (skip_ws r1) with
                    | None => None
                    | Some (v, r2) =>
                        match skip_ws r2 with
                        | String "}"%char r3 => Some ([(k, v)], r3)
                        | String ","%char r3 =>
                            match parse_members fuel' (skip_ws r3) with
                            | Some (kvs, r4) => Some ((k, v) :: kvs, r4)
                            | None => None
                            end
                        | _ => None
                        end
                    end
                | _ => None
                end
            end
          else None
      | EmptyString => None
      end
  end.

Definition loads (s : string) : option json :=
  match parse_value (2 * String.length s + 2) (skip_ws s) with
  | Some (j, r) => match skip_ws r with
                   | EmptyString => Some j
                   | _ => None
                   end
  | None => None
  end.

Definition decode (s : string) : result json :=
  match loads s with
  | Some j => Ok j
  | None => Raise JSONDecodeError
  end.

Definition lib : JsonLib :=
  {| json_decode := decode; json_dumps := dumps; json_dumps_indent := dumps_indent |}.

(** The same codec under a recursion limit.  A text that opens with more
    than [limit] brackets is nested deeper than the limit when the decoder
    has read them: decoding it raises [RecursionError]. *)
Fixpoint opening_brackets (s : string) : nat :=
  match s with
  | String c s' => if Ascii.eqb c "["%char then S (opening_brackets s') else O
  | EmptyString => O
  end.

Definition lib_with_limit (limit : nat) : JsonLib :=
  {| json_decode := fun s => if (limit <? opening_brackets s)%nat
                             then Raise RecursionError else decode s;
     json_dumps := dumps;
     json_dumps_indent := dumps_indent |}.

(** [c * n]. *)
Fixpoint replicate (n : nat) (c : ascii) : string :=
  match n with
  | O => EmptyString
  | S n' => String c (replicate n' c)
  end.

(** Examples write a JSON text with apostrophes for its double quotes. *)
Fixpoint dq (s : string) : string :=
  match s with
  | EmptyString => EmptyString
  | String c s' => String (if Ascii.eqb c "'"%char then dquote else c) (dq s')
  end.

End RefJson.


(* ===================================================================== *)
(** ** The manifest wire format, and what a dispatch does to the log *)
(* ===================================================================== *)

(** The format of one manifest entry: an object with a string
    [service_id]; [endpoint], [name], [description] and
    [capability_category] are strings when present, [pricing] is an object
    whose [sats] is an integer, [input_schema] an object whose [properties]
    maps each field name to an object. *)

Definition is_str (o : json) : bool :=
  match o with JStr _ => true | _ => false end.

Definition is_int (o : json) : bool :=
  match o with JNum _ => true | _ => false end.

Definition is_obj (o : json) : bool :=
  match o with JObj _ => true | _ => false end.

Definition absent_or (p : json -> bool) (o : option json) : bool :=
  match o with
  | Some v => p v
  | None => true
  end.

Definition wf_properties (o : json) : bool :=
  match o with
  | JObj ps => forallb (fun kv => is_obj (snd kv)) ps
  | _ => false
  end.

Definition wf_schema (o : json) : bool :=
  match o with
  | JObj s => absent_or wf_properties (dict_get "properties" s)
  | _ => false
  end.

Definition wf_pricing (o : json) : bool :=
  match o with
  | JObj p => absent_or is_int (dict_get "sats" p)
  | _ => false
  end.

Definition wf_entry (o : json) : bool :=
  match o with
  | JObj d =>
      match dict_get "service_id" d with
      | Some (JStr _) => true
      | _ => false
      end
      && absent_or is_str (dict_get "endpoint" d)
      && absent_or is_str (dict_get "name" d)
      && absent_or is_str (dict_get "description" d)
      && absent_or is_str (dict_get "capability_category" d)
      && absent_or wf_pricing (dict_get "pricing" d)
      && absent_or wf_schema (dict_get "input_schema" d)
  | _ => false
  end.

(** The fields of an entry, as the data model of the adapter names them. *)

Definition field (k : string) (o : json) : option json :=
  match o with
  | JObj d => dict_get k d
  | _ => None
  end.

Definition str_field (k : string) (o : json) : option string :=
  match field k o with
  | Some (JStr s) => Some s
  | _ => None
  end.

Definition serviceId (e : json) : string :=
  match str_field "service_id" e with
  | Some s => s
  | None => EmptyString
  end.

(** The declared endpoint, or the conventional path of the service. *)
Definition entry_endpoint (e : json) : string :=
  match str_field "endpoint" e with
  | Some s => s
  | None => "/api/services/" ++ serviceId e
  end.

(** 0 when the entry has no price. *)
Definition priceSats (e : json) : Z :=
  match field "pricing" e with
  | Some p => match field "sats" p with
              | Some (JNum z) => z
              | _ => 0
              end
  | None => 0
  end.

(** Empty when the entry has no category. *)
Definition category (e : json) : string :=
  match str_field "capability_category" e with
  | Some s => s
  | None => EmptyString
  end.

(** [inputSchema.properties]; empty when absent. *)
Definition properties (e : json) : dict :=
  match field "input_schema" e with
  | Some s => match field "properties" s with
              | Some (JObj ps) => ps
              | _ => []
              end
  | None => []
  end.

(** An absolute endpoint is kept, a path is put after the base URL. *)
Definition resolvedEndpoint (baseUrl : string) (e : json) : string :=
  if String.prefix "http" (entry_endpoint e) then entry_endpoint e
  else baseUrl ++ entry_endpoint e.

Definition toolName (e : json) : string := "d3p_" ++ serviceId e.

(** The requests a computation adds to the log. *)
Definition sent {A} (c : IO A) (net : network) (log : list request) : list request :=
  skipn (length log) (snd (c net log)).

(** The value of a request header, if the request carries it. *)
Fixpoint lookup (k : string) (l : list (string * string)) : option string :=
  match l with
  | [] => None
  | (k', v) :: l' => if (k =? k')%string then Some v else lookup k l'
  end.

Definition header (k : string) (req : request) : option string :=
  lookup k (req_headers req).

(** The one request of a dispatch. *)
Definition dispatch_request (url : string) (data : json) (mock : bool) : request :=
  {| req_method := POST; req_url := url; req_json := Some data;
     req_headers := call_headers mock; req_timeout := 15 |}.

(** A string field with a default. *)
Definition str_field_or (k default : string) (e : json) : string :=
  match str_field k e with
  | Some s => s
  | None => default
  end.

(** The schema object of the entry; the empty object when absent. *)
Definition inputSchema (e : json) : json :=
  match field "input_schema" e with
  | Some s => s
  | None => JObj []
  end.

(** The entry as the tables hold it: with its resolved endpoint. *)
Definition with_endpoint (baseUrl : string) (e : json) : json :=
  match e with
  | JObj d => JObj (dict_set "_endpoint" (JStr (resolvedEndpoint baseUrl e)) d)
  | _ => e
  end.

(** The declared type of a property, and its documentation (the
    description, else the type); empty when absent. *)
Definition type_of (v : json) : json :=
  match field "type" v with
  | Some t => t
  | None => JStr EmptyString
  end.

Definition doc_of (v : json) : json :=
  match field "description" v with
  | Some t => t
  | None => type_of v
  end.

(** The enumeration of the input fields in a tool description. *)
Definition input_fields (e : json) : string :=
  String.concat ", "
    (map (fun kv => fst kv ++ " (" ++ py_str (type_of (snd kv)) ++ ")") (properties e)).

Definition param_doc (e : json) : string :=
  String.concat "; "
    (map (fun kv => fst kv ++ ": " ++ py_str (doc_of (snd kv))) (properties e)).

(** The summary of a service in the OpenAI and MCP adapters: description,
    category and price. *)
Definition summary (e : json) : string :=
  str_field_or "description" EmptyString e ++ " [" ++ category e ++ ", "
    ++ string_of_Z (priceSats e) ++ " sats]".

(** The name in an OpenAI tool definition. *)
Definition definition_name (def : json) : option string :=
  match field "function" def with
  | Some f => str_field "name" f
  | None => None
  end.

(** [D3PServiceTool] has the fields of [D3PTool]. *)
Definition as_langchain (t : CrewAI.D3PServiceTool) : LangChain.D3PTool :=
  {| LangChain.name := CrewAI.name t;
     LangChain.description := CrewAI.description t;
     LangChain.service_id := CrewAI.service_id t;
     LangChain.endpoint := CrewAI.endpoint t;
     LangChain.pricing_sats := CrewAI.pricing_sats t;
     LangChain.mock_payments := CrewAI.mock_payments t;
     LangChain.base_url := CrewAI.base_url t;
     LangChain.service_schema := CrewAI.service_schema t |}.

(** The body of an error result. *)
Definition error_body (message : string) : json := JObj [("error", JStr message)].

(** What [execute] and [_run] make of an answer that is not a 402 in live
    mode: the decoded body, or the first 500 characters of the text. *)
Definition passed_through `{JsonLib} (resp : response) : string :=
  match json_loads (text resp) with
  | Some body => json_dumps body
  | None => slice_to 500 (text resp)
  end.

(* ===================================================================== *)
(** ** The constants of d3p_mcp_tool.py *)
(* ===================================================================== *)

(** [c.lower()] on a code point below 256: the letters A-Z and the
    capitals of Latin-1 (U+00C0-U+00DE but the multiplication sign). *)
Definition lower_char (c : ascii) : ascii :=
  let n := N_of_ascii c in
  if ((65 <=? n) && (n <=? 90) || (192 <=? n) && (n <=? 222) && negb (n =? 215))%N
  then ascii_of_N (n + 32) else c.

(** [s.lower()]. *)
Fixpoint py_lower (s : string) : string :=
  match s with
  | EmptyString => EmptyString
  | String c s' => String (lower_char c) (py_lower s')
  end.

(** [os.environ]: the value of a variable, if it is set. *)
Definition environ := string -> option string.

(** [os.environ.get(k, default)]. *)
Definition environ_get (env : environ) (k default : string) : string :=
  match env k with
  | Some v => v
  | None => default
  end.

Module McpConfig.

Definition MANIFEST_URL (env : environ) : string :=
  environ_get env "D3P_MANIFEST_URL" "https://labs.digital3.ai/api/services/manifest".

Definition BASE_URL (env : environ) : string :=
  environ_get env "D3P_BASE_URL" "https://labs.digital3.ai".

(** [os.environ.get("D3P_MOCK_PAYMENTS", "true").lower() != "false"]. *)
Definition MOCK_PAYMENTS (env : environ) : bool :=
  negb (py_lower (environ_get env "D3P_MOCK_PAYMENTS" "true") =? "false")%string.

(** Importing the module in a given environment. *)
Definition import `{JsonLib} (env : environ) : IO MCP.module_state :=
  MCP.import (MANIFEST_URL env) (BASE_URL env) (MOCK_PAYMENTS env).

End McpConfig.

(** The request of a manifest fetch. *)
Definition fetch_request (url : string) : request :=
  {| req_method := GET; req_url := url; req_json := None;
     req_headers := []; req_timeout := 10 |}.

(** The last entry of a manifest that has a given tool name. *)
Definition last_named (name : string) (manifest : list json) : option json :=
  find (fun e => (toolName e =? name)%string) (rev manifest).

(* ===================================================================== *)
(** ** A concrete deployment *)
(* ===================================================================== *)

(** The one-service manifest of the design document, served by a remote
    host that answers every call of a service with a fixed status and
    body. *)
Module Example.

Definition baseUrl : string := "https://example.test".

Definition manifestUrl : string := "https://example.test/api/services/manifest".

Definition manifest_text : string :=
  RefJson.dq "{'services':[{'service_id':'btc-price','endpoint':'/api/services/btc-price','pricing':{'sats':5},'input_schema':{'properties':{'currency':{'type':'string'}}}}]}".

Definition entry : json :=
  JObj [("service_id", JStr "btc-price");
        ("endpoint", JStr "/api/services/btc-price");
        ("pricing", JObj [("sats", JNum 5)]);
        ("input_schema",
         JObj [("properties", JObj [("currency", JObj [("type", JStr "string")])])])].

(** An entry with nothing but its identifier. *)
Definition bare : json := JObj [("service_id", JStr "echo")].

(** A second service, with every optional field but the schema and an
    absolute endpoint, and the manifest of the two. *)
Definition second : json :=
  JObj [("service_id", JStr "eth-price");
        ("name", JStr "ETH price");
        ("description", JStr "Ether spot price");
        ("capability_category", JStr "market");
        ("endpoint", JStr "https://eth.example.test/price");
        ("pricing", JObj [("sats", JNum 7)])].

Definition two_services_text : string :=
  RefJson.dq "{'services':[{'service_id':'btc-price','endpoint':'/api/services/btc-price','pricing':{'sats':5},'input_schema':{'properties':{'currency':{'type':'string'}}}},{'service_id':'eth-price','name':'ETH price','description':'Ether spot price','capability_category':'market','endpoint':'https://eth.example.test/price','pricing':{'sats':7}}]}".

(** A remote host that serves a given manifest text. *)
Definition serving (manifest : string) (status : Z) (body : string) : network :=
  fun _ req =>
    match req_method req with
    | GET => Answer {| status_code := 200; text := manifest |}
    | POST => Answer {| status_code := status; text := body |}
    end.

Definition remote (status : Z) (body : string) : network :=
  fun _ req =>
    match req_method req with
    | GET => Answer {| status_code := 200; text := manifest_text |}
    | POST => Answer {| status_code := status; text := body |}
    end.

(** The OpenAI adapter once loaded from [manifest_text]. *)
Definition openai (mock : bool) : OpenAI.D3POpenAI :=
  {| OpenAI.base_url := baseUrl;
     OpenAI.mock_payments := mock;
     OpenAI._services :=
       [("d3p_btc-price",
         JObj [("service_id", JStr "btc-price");
               ("endpoint", JStr "/api/services/btc-price");
               ("pricing", JObj [("sats", JNum 5)]);
               ("input_schema",
                JObj [("properties",
                       JObj [("currency", JObj [("type", JStr "string")])])]);
               ("_endpoint", JStr "https://example.test/api/services/btc-price")])] |}.

(** The LangChain tool built from [entry]. *)
Definition tool (mock : bool) : LangChain.D3PTool :=
  {| LangChain.name := "d3p_btc-price";
     LangChain.description :=
       "Call the btc-price d3p service [, 5 sats]. Input fields: currency (string). Pass a JSON string as payload.";
     LangChain.service_id := "btc-price";
     LangChain.endpoint := "https://example.test/api/services/btc-price";
     LangChain.pricing_sats := 5;
     LangChain.mock_payments := mock;
     LangChain.base_url := baseUrl;
     LangChain.service_schema :=
       JObj [("properties", JObj [("currency", JObj [("type", JStr "string")])])] |}.

End Example.

(* ===================================================================== *)
(** ** Properties *)
(* ===================================================================== *)

(** The concrete deployment is what the adapters compute. *)

Example manifest_text_decodes :
  RefJson.loads Example.manifest_text = Some (JObj [("services", JArr [Example.entry])]).
Proof. vm_compute. reflexivity. Qed.

Example openai_loaded (mock : bool) :
  @OpenAI.init RefJson.lib Example.manifestUrl Example.baseUrl mock
    (Example.remote 200 EmptyString) []
  = (Ok (Example.openai mock),
     [{| req_method := GET; req_url := Example.manifestUrl; req_json := None;
         req_headers := []; req_timeout := 10 |}]).
Proof. destruct mock; vm_compute; reflexivity. Qed.

Example tool_built (mock : bool) :
  @LangChain.from_manifest RefJson.lib Example.manifestUrl mock Example.baseUrl
    (Example.remote 200 EmptyString) []
  = (Ok [Example.tool mock],
     [{| req_method := GET; req_url := Example.manifestUrl; req_json := None;
         req_headers := []; req_timeout := 10 |}]).
Proof. destruct mock; vm_compute; reflexivity. Qed.

(** *** Dictionaries *)

Lemma dict_get_set_same (k : string) (v : json) (d : dict) :
  dict_get k (dict_set k v d) = Some v.
Proof.
  induction d as [|[k' v'] d IH]; simpl.
  - now rewrite String.eqb_refl.
  - destruct (String.eqb k k') eqn:E; simpl.
    + now rewrite String.eqb_refl.
    + now rewrite E.
Qed.

Lemma dict_get_set_other (k k' : string) (v : json) (d : dict) :
  k <> k' -> dict_get k (dict_set k' v d) = dict_get k d.
Proof.
  intros Hne. induction d as [|[k0 v0] d IH]; simpl.
  - destruct (String.eqb_spec k k'); [contradiction | reflexivity].
  - destruct (String.eqb_spec k' k0) as [->|Hk0]; simpl.
    + destruct (String.eqb_spec k k0); [contradiction | reflexivity].
    + destruct (String.eqb_spec k k0); [reflexivity | exact IH].
Qed.

Lemma dict_set_fresh (k : string) (v : json) (d : dict) :
  dict_get k d = None -> dict_set k v d = (d ++ [(k, v)])%list.
Proof.
  induction d as [|[k' v'] d IH]; simpl; intros Hget.
  - reflexivity.
  - destruct (String.eqb k k'); [discriminate | now rewrite IH].
Qed.



Lemma dict_get_None_keys (k : string) (d : dict) :
  dict_get k d = None <-> ~ In k (keys d).
Proof.
  induction d as [|[k' v'] d IH]; simpl.
  - tauto.
  - destruct (String.eqb_spec k k') as [->|Hne].
    + split; [discriminate | intros Hn; exfalso; apply Hn; now left].
    + rewrite IH. split.
      * intros Hn [Heq|Hin]; [now subst | contradiction].
      * intros Hn Hin. apply Hn. now right.
Qed.

(** *** Strings *)


Lemma slice_to_short (n : nat) (s : string) :
  (String.length s <= n)%nat -> slice_to n s = s.
Proof.
  unfold slice_to. revert s.
  induction n as [|n IH]; intros [|c s]; simpl; intros Hlen;
    try reflexivity; try lia.
  f_equal. apply IH. lia.
Qed.


Lemma append_inj_l (p s t : string) : p ++ s = p ++ t -> s = t.
Proof.
  induction p as [|c p IH]; simpl; intros Heq.
  - exact Heq.
  - injection Heq as Heq. auto.
Qed.

(** *** The log *)

Lemma skipn_length_app {A} (l m : list A) : skipn (length l) (l ++ m) = m.
Proof. induction l as [|a l IH]; simpl; auto. Qed.

Lemma skipn_length_self {A} (l : list A) : skipn (length l) l = [].
Proof. induction l as [|a l IH]; simpl; auto. Qed.

Section Dispatch.
Context `{JsonLib}.

Lemma json_loads_Some (s : string) (j : json) :
  json_loads s = Some j -> json_decode s = Ok j.
Proof.
  unfold json_loads. destruct (json_decode s); [|discriminate].
  now intros [= ->].
Qed.

Lemma json_loads_None (s : string) :
  json_loads s = None -> exists e, json_decode s = Raise e.
Proof.
  unfold json_loads. destruct (json_decode s) as [j|e]; [discriminate|].
  now exists e.
Qed.

(** A dispatch that gets past its argument makes one call and decides on
    the answer. *)
Lemma openai_execute_answer (self : OpenAI.D3POpenAI) (name args url : string)
    (svc data : json) (net : network) (log : list request) (resp : response) :
  dict_get name (OpenAI._services self) = Some svc ->
  truthy svc = true ->
  json_loads args = Some data ->
  field "_endpoint" svc = Some (JStr url) ->
  net log (dispatch_request url data (OpenAI.mock_payments self)) = Answer resp ->
  OpenAI.execute self name args net log
  = (if (status_code resp =? 402) && negb (OpenAI.mock_payments self)
     then bind (pricing_sats_of svc)
            (fun sats => Ok (json_dumps (payment_required sats)))
     else Ok (passed_through resp),
     (log ++ [dispatch_request url data (OpenAI.mock_payments self)])%list).
Proof.
  intros Hsvc Htruthy Hargs Hurl Hnet.
  unfold OpenAI.execute. rewrite Hsvc, Htruthy, (json_loads_Some _ _ Hargs). simpl.
  destruct svc as [| | | | |d]; try discriminate. simpl in Hurl.
  unfold io_bind, io_lift, py_getitem, requests_post, http, dispatch_request in *.
  rewrite Hurl, Hnet. unfold passed_through.
  destruct ((status_code resp =? 402) && negb (OpenAI.mock_payments self)).
  - destruct (pricing_sats_of (JObj d)); reflexivity.
  - destruct (json_loads (text resp)); reflexivity.
Qed.

(** The requests of a dispatch: none, or the one [dispatch_request]. *)
Lemma openai_execute_log (self : OpenAI.D3POpenAI) (name args : string)
    (net : network) (log : list request) :
  snd (OpenAI.execute self name args net log) = log \/
  exists url data,
    snd (OpenAI.execute self name args net log)
    = (log ++ [dispatch_request url data (OpenAI.mock_payments self)])%list.
Proof.
  unfold OpenAI.execute.
  destruct (dict_get name (OpenAI._services self)) as [svc|]; [|now left].
  destruct (truthy svc); simpl; [|now left].
  destruct (json_decode args) as [data|[]]; try now left.
  unfold io_bind, io_lift, requests_post, http.
  destruct (py_getitem svc "_endpoint") as [endpoint|e]; [|now left].
  destruct endpoint as [| | |url| |]; try now left.
  right. exists url, data. fold (dispatch_request url data (OpenAI.mock_payments self)).
  destruct (net log _) as [resp|e]; [|reflexivity].
  destruct ((status_code resp =? 402) && negb (OpenAI.mock_payments self)).
  - destruct (pricing_sats_of svc); reflexivity.
  - destruct (json_loads (text resp)); reflexivity.
Qed.

Lemma langchain_run_answer (self : LangChain.D3PTool) (payload : string)
    (data : json) (net : network) (log : list request) (resp : response) :
  json_loads payload = Some data ->
  net log (dispatch_request (LangChain.endpoint self) data (LangChain.mock_payments self))
  = Answer resp ->
  LangChain._run self payload net log
  = (Ok (if (status_code resp =? 402) && negb (LangChain.mock_payments self)
         then json_dumps (payment_required (JNum (LangChain.pricing_sats self)))
         else passed_through resp),
     (log ++ [dispatch_request (LangChain.endpoint self) data
                (LangChain.mock_payments self)])%list).
Proof.
  intros Hargs Hnet. unfold LangChain._run. rewrite (json_loads_Some _ _ Hargs).
  unfold io_bind, requests_post, http, dispatch_request in *. rewrite Hnet.
  unfold passed_through.
  destruct ((status_code resp =? 402) && negb (LangChain.mock_payments self)).
  - reflexivity.
  - destruct (json_loads (text resp)); reflexivity.
Qed.

Lemma langchain_run_log (self : LangChain.D3PTool) (payload : string)
    (net : network) (log : list request) :
  snd (LangChain._run self payload net log) = log \/
  exists data,
    snd (LangChain._run self payload net log)
    = (log ++ [dispatch_request (LangChain.endpoint self) data
                 (LangChain.mock_payments self)])%list.
Proof.
  unfold LangChain._run.
  destruct (json_decode payload) as [data|[]]; try now left.
  right. exists data. unfold io_bind, requests_post, http, dispatch_request.
  destruct (net log _) as [resp|e]; [|reflexivity].
  destruct ((status_code resp =? 402) && negb (LangChain.mock_payments self)).
  - reflexivity.
  - destruct (json_loads (text resp)); reflexivity.
Qed.

Lemma crewai_run_as_langchain (self : CrewAI.D3PServiceTool) (payload : string) :
  CrewAI._run self payload = LangChain._run (as_langchain self) payload.
Proof. reflexivity. Qed.

Lemma mcp_call_service_answer (mock : bool) (endpoint : string) (data sats : json)
    (net : network) (log : list request) (resp : response) :
  net log (dispatch_request endpoint data mock) = Answer resp ->
  MCP._call_service mock endpoint data sats net log
  = (Ok (if (status_code resp =? 402) && negb mock
         then payment_required sats
         else match json_loads (text resp) with
              | Some body => body
              | None => JObj [("raw", JStr (slice_to 500 (text resp)));
                              ("status", JNum (status_code resp))]
              end),
     (log ++ [dispatch_request endpoint data mock])%list).
Proof.
  intros Hnet. unfold MCP._call_service.
  unfold io_bind, requests_post, http, dispatch_request in *. rewrite Hnet.
  destruct ((status_code resp =? 402) && negb mock).
  - reflexivity.
  - destruct (json_loads (text resp)); reflexivity.
Qed.

(** A tool function of the MCP server serialises what [_call_service]
    returns. *)
Lemma mcp_tool_answer (mock : bool) (sid : json) (endpoint : string) (sats : json)
    (desc param_doc params : string) (data : json)
    (net : network) (log : list request) (resp : response) :
  json_loads params = Some data ->
  net log (dispatch_request endpoint data mock) = Answer resp ->
  MCP.call (MCP._make_tool mock sid endpoint sats desc param_doc) params net log
  = (Ok (json_dumps
           (if (status_code resp =? 402) && negb mock
            then payment_required sats
            else match json_loads (text resp) with
                 | Some body => body
                 | None => JObj [("raw", JStr (slice_to 500 (text resp)));
                                 ("status", JNum (status_code resp))]
                 end)),
     (log ++ [dispatch_request endpoint data mock])%list).
Proof.
  intros Hargs Hnet. simpl. rewrite (json_loads_Some _ _ Hargs). unfold io_bind.
  now rewrite (mcp_call_service_answer mock endpoint data sats net log resp Hnet).
Qed.

Lemma mcp_tool_log (mock : bool) (sid : json) (endpoint : string) (sats : json)
    (desc param_doc params : string) (net : network) (log : list request) :
  snd (MCP.call (MCP._make_tool mock sid endpoint sats desc param_doc) params net log)
  = log \/
  exists data,
    snd (MCP.call (MCP._make_tool mock sid endpoint sats desc param_doc) params net log)
    = (log ++ [dispatch_request endpoint data mock])%list.
Proof.
  simpl. destruct (json_decode params) as [data|[]]; try now left.
  right. exists data.
  unfold io_bind, MCP._call_service, io_bind, requests_post, http, dispatch_request.
  destruct (net log _) as [resp|e]; [|reflexivity].
  destruct ((status_code resp =? 402) && negb mock).
  - reflexivity.
  - destruct (json_loads (text resp)); reflexivity.
Qed.

(** On a well-formed entry the price lookup returns the integer price. *)
Lemma wf_pricing_sats (e : json) :
  wf_entry e = true -> pricing_sats_of e = Ok (JNum (priceSats e)).
Proof.
  destruct e as [| | | | |d]; try discriminate. simpl.
  intros Hwf. repeat (apply andb_prop in Hwf; destruct Hwf as [Hwf ?]).
  unfold pricing_sats_of, priceSats, py_get, bind, field.
  destruct (dict_get "pricing" d) as [p|]; [|reflexivity].
  destruct p as [| | | | |pd]; try discriminate. simpl in *.
  destruct (dict_get "sats" pd) as [[]|]; try discriminate; reflexivity.
Qed.

Lemma wf_entry_truthy (e : json) : wf_entry e = true -> truthy e = true.
Proof.
  destruct e as [| | | | |[|kv d]]; try discriminate; reflexivity.
Qed.

End Dispatch.

(* ===================================================================== *)
(** ** The dispatcher *)
(* ===================================================================== *)

Section DispatcherClaims.
Context `{JsonLib}.

(** C1 (amended).  When [json.loads] rejects the argument string with
    [JSONDecodeError], every dispatcher returns an error result, sends
    nothing and raises nothing; the message of the error depends on the
    adapter: "Invalid JSON payload" for the LangChain and CrewAI tools,
    "Invalid JSON arguments" for the OpenAI adapter (for a function of its
    table), "Invalid JSON" for a tool of the MCP server. *)
Theorem invalid_json_rejected (arguments : string) :
  json_decode arguments = Raise JSONDecodeError ->
  (forall (tool : LangChain.D3PTool) net log,
      LangChain._run tool arguments net log
      = (Ok (json_dumps (error_body "Invalid JSON payload")), log)) /\
  (forall (tool : CrewAI.D3PServiceTool) net log,
      CrewAI._run tool arguments net log
      = (Ok (json_dumps (error_body "Invalid JSON payload")), log)) /\
  (forall (self : OpenAI.D3POpenAI) function_name svc net log,
      dict_get function_name (OpenAI._services self) = Some svc ->
      truthy svc = true ->
      OpenAI.execute self function_name arguments net log
      = (Ok (json_dumps (error_body "Invalid JSON arguments")), log)) /\
  (forall mock sid endpoint sats desc param_doc net log,
      MCP.call (MCP._make_tool mock sid endpoint sats desc param_doc) arguments net log
      = (Ok (json_dumps (error_body "Invalid JSON")), log)).
Proof.
  intros Hbad. repeat split; intros.
  - unfold LangChain._run. now rewrite Hbad.
  - unfold CrewAI._run. now rewrite Hbad.
  - unfold OpenAI.execute. match goal with
      | Hs : dict_get _ _ = Some _, Ht : truthy _ = true |- _ => rewrite Hs, Ht
      end. simpl. now rewrite Hbad.
  - simpl. now rewrite Hbad.
Qed.

(** C2.  In each of the four adapters the request of a dispatch carries
    [X-D3P-Cert-Test: true] in mock mode and no such header in live mode;
    in live mode an answer with status 402 makes the dispatch return the
    payment-required result ([error], [status] 402, [message] with the
    price of the service), after that one request and no other. *)
Theorem payment_gating :
  (forall (self : OpenAI.D3POpenAI) function_name arguments net log req,
      In req (sent (OpenAI.execute self function_name arguments) net log) ->
      header "X-D3P-Cert-Test" req
      = if OpenAI.mock_payments self then Some "true" else None) /\
  (forall (self : LangChain.D3PTool) payload net log req,
      In req (sent (LangChain._run self payload) net log) ->
      header "X-D3P-Cert-Test" req
      = if LangChain.mock_payments self then Some "true" else None) /\
  (forall (self : CrewAI.D3PServiceTool) payload net log req,
      In req (sent (CrewAI._run self payload) net log) ->
      header "X-D3P-Cert-Test" req
      = if CrewAI.mock_payments self then Some "true" else None) /\
  (forall mock sid endpoint sats desc param_doc params net log req,
      In req (sent (MCP.call (MCP._make_tool mock sid endpoint sats desc param_doc) params)
                net log) ->
      header "X-D3P-Cert-Test" req = if mock then Some "true" else None) /\
  (forall (self : OpenAI.D3POpenAI) function_name arguments svc data url net log resp,
      OpenAI.mock_payments self = false ->
      dict_get function_name (OpenAI._services self) = Some svc ->
      wf_entry svc = true ->
      field "_endpoint" svc = Some (JStr url) ->
      json_loads arguments = Some data ->
      net log (dispatch_request url data false) = Answer resp ->
      status_code resp = 402 ->
      OpenAI.execute self function_name arguments net log
      = (Ok (json_dumps
               (JObj [("error", JStr "L402 payment required");
                      ("status", JNum 402);
                      ("message",
                       JStr ("Service requires " ++ string_of_Z (priceSats svc)
                               ++ " sats via Lightning"))])),
         (log ++ [dispatch_request url data false])%list)) /\
  (forall (self : LangChain.D3PTool) payload data net log resp,
      LangChain.mock_payments self = false ->
      json_loads payload = Some data ->
      net log (dispatch_request (LangChain.endpoint self) data false) = Answer resp ->
      status_code resp = 402 ->
      LangChain._run self payload net log
      = (Ok (json_dumps
               (JObj [("error", JStr "L402 payment required");
                      ("status", JNum 402);
                      ("message",
                       JStr ("Service requires "
                               ++ string_of_Z (LangChain.pricing_sats self)
                               ++ " sats via Lightning"))])),
         (log ++ [dispatch_request (LangChain.endpoint self) data false])%list)).
Proof.
  repeat split.
  - intros self function_name arguments net log req. unfold sent.
    destruct (openai_execute_log self function_name arguments net log)
      as [-> | (url & data & ->)].
    + rewrite skipn_length_self. intros [].
    + rewrite skipn_length_app. intros [<- | []].
      destruct (OpenAI.mock_payments self); reflexivity.
  - intros self payload net log req. unfold sent.
    destruct (langchain_run_log self payload net log) as [-> | (data & ->)].
    + rewrite skipn_length_self. intros [].
    + rewrite skipn_length_app. intros [<- | []].
      destruct (LangChain.mock_payments self); reflexivity.
  - intros self payload net log req. rewrite crewai_run_as_langchain. unfold sent.
    destruct (langchain_run_log (as_langchain self) payload net log)
      as [-> | (data & ->)].
    + rewrite skipn_length_self. intros [].
    + rewrite skipn_length_app. intros [<- | []].
      simpl. destruct (CrewAI.mock_payments self); reflexivity.
  - intros mock sid endpoint sats desc param_doc params net log req. unfold sent.
    destruct (mcp_tool_log mock sid endpoint sats desc param_doc params net log)
      as [-> | (data & ->)].
    + rewrite skipn_length_self. intros [].
    + rewrite skipn_length_app. intros [<- | []].
      destruct mock; reflexivity.
  - intros self function_name arguments svc data url net log resp
      Hlive Hsvc Hwf Hurl Hargs Hnet Hstatus.
    rewrite <- Hlive in Hnet.
    rewrite (openai_execute_answer self function_name arguments url svc data
               net log resp Hsvc (wf_entry_truthy svc Hwf) Hargs Hurl Hnet).
    rewrite Hstatus, Hlive, (wf_pricing_sats svc Hwf). reflexivity.
  - intros self payload data net log resp Hlive Hargs Hnet Hstatus.
    rewrite <- Hlive in Hnet.
    rewrite (langchain_run_answer self payload data net log resp Hargs Hnet).
    rewrite Hstatus, Hlive. reflexivity.
Qed.

(** C3.  A dispatch for a name that is not in the table returns the
    unknown-function error result and sends nothing. *)
Theorem unknown_tool_rejected (self : OpenAI.D3POpenAI)
    (function_name arguments : string) (net : network) (log : list request) :
  dict_get function_name (OpenAI._services self) = None ->
  OpenAI.execute self function_name arguments net log
  = (Ok (json_dumps (error_body ("Unknown function: " ++ function_name))), log).
Proof.
  intros Hmissing. unfold OpenAI.execute. now rewrite Hmissing.
Qed.


(** C10.  In mock mode the test for payment is never taken, whatever the
    status of the answer, 402 included: the dispatch returns the decoded
    body, or the first 500 characters of the text (next to the status, in
    [_call_service] of the MCP server), by the path of every other status. *)
Theorem mock_402_passed_through :
  (forall (self : OpenAI.D3POpenAI) function_name arguments svc data url net log resp,
      OpenAI.mock_payments self = true ->
      dict_get function_name (OpenAI._services self) = Some svc ->
      truthy svc = true ->
      field "_endpoint" svc = Some (JStr url) ->
      json_loads arguments = Some data ->
      net log (dispatch_request url data true) = Answer resp ->
      OpenAI.execute self function_name arguments net log
      = (Ok (match json_loads (text resp) with
             | Some body => json_dumps body
             | None => slice_to 500 (text resp)
             end),
         (log ++ [dispatch_request url data true])%list)) /\
  (forall (self : LangChain.D3PTool) payload data net log resp,
      LangChain.mock_payments self = true ->
      json_loads payload = Some data ->
      net log (dispatch_request (LangChain.endpoint self) data true) = Answer resp ->
      LangChain._run self payload net log
      = (Ok (match json_loads (text resp) with
             | Some body => json_dumps body
             | None => slice_to 500 (text resp)
             end),
         (log ++ [dispatch_request (LangChain.endpoint self) data true])%list)) /\
  (forall endpoint data sats net log resp,
      net log (dispatch_request endpoint data true) = Answer resp ->
      MCP._call_service true endpoint data sats net log
      = (Ok (match json_loads (text resp) with
             | Some body => body
             | None => JObj [("raw", JStr (slice_to 500 (text resp)));
                             ("status", JNum (status_code resp))]
             end),
         (log ++ [dispatch_request endpoint data true])%list)).
Proof.
  repeat split.
  - intros self function_name arguments svc data url net log resp
      Hmock Hsvc Htruthy Hurl Hargs Hnet.
    rewrite <- Hmock in Hnet.
    rewrite (openai_execute_answer self function_name arguments url svc data
               net log resp Hsvc Htruthy Hargs Hurl Hnet).
    rewrite Hmock, andb_false_r. reflexivity.
  - intros self payload data net log resp Hmock Hargs Hnet.
    rewrite <- Hmock in Hnet.
    rewrite (langchain_run_answer self payload data net log resp Hargs Hnet).
    rewrite Hmock, andb_false_r. reflexivity.
  - intros endpoint data sats net log resp Hnet.
    rewrite (mcp_call_service_answer true endpoint data sats net log resp Hnet).
    rewrite andb_false_r. reflexivity.
Qed.

End DispatcherClaims.

(** The dispatcher claims on the concrete deployment. *)

Lemma invalid_json_rejected_witness :
  @json_decode RefJson.lib "not json" = Raise JSONDecodeError /\
  @OpenAI.execute RefJson.lib (Example.openai true) "d3p_btc-price" "not json"
    (Example.remote 200 EmptyString) []
  = (Ok (RefJson.dq "{'error': 'Invalid JSON arguments'}"), []).
Proof.
  split; [reflexivity|].
  apply (proj1 (proj2 (proj2 (@invalid_json_rejected RefJson.lib "not json" eq_refl)))
           (Example.openai true) "d3p_btc-price"
           (JObj [("service_id", JStr "btc-price");
                  ("endpoint", JStr "/api/services/btc-price");
                  ("pricing", JObj [("sats", JNum 5)]);
                  ("input_schema",
                   JObj [("properties",
                          JObj [("currency", JObj [("type", JStr "string")])])]);
                  ("_endpoint", JStr "https://example.test/api/services/btc-price")]));
    reflexivity.
Defined.

(** C1, as stated, fails twice.  On an argument that [json.loads] rejects,
    the OpenAI adapter and the MCP tool answer with messages of their own,
    not with "Invalid JSON payload".  And the handlers catch
    [JSONDecodeError] alone: on a text of 2000 opening brackets, which under
    a recursion limit of 1000 makes [json.loads] raise [RecursionError], the
    exception leaves the dispatcher. *)
Lemma invalid_json_payload_counterexample :
  @json_decode RefJson.lib "not json" = Raise JSONDecodeError /\
  @OpenAI.execute RefJson.lib (Example.openai true) "d3p_btc-price" "not json"
    (Example.remote 200 EmptyString) []
  = (Ok (RefJson.dq "{'error': 'Invalid JSON arguments'}"), []) /\
  MCP.call (@MCP._make_tool RefJson.lib true (JStr "btc-price")
              "https://example.test/api/services/btc-price" (JNum 5)
              " [, 5 sats]" "currency: string")
    "not json" (Example.remote 200 EmptyString) []
  = (Ok (RefJson.dq "{'error': 'Invalid JSON'}"), []) /\
  @OpenAI.execute RefJson.lib (Example.openai true) "d3p_btc-price" "not json"
    (Example.remote 200 EmptyString) []
  <> (Ok (@json_dumps RefJson.lib (error_body "Invalid JSON payload")), []) /\
  @OpenAI.execute (RefJson.lib_with_limit 1000) (Example.openai true) "d3p_btc-price"
    (RefJson.replicate 2000 "["%char) (Example.remote 200 EmptyString) []
  = (Raise RecursionError, []) /\
  @LangChain._run (RefJson.lib_with_limit 1000) (Example.tool true)
    (RefJson.replicate 2000 "["%char) (Example.remote 200 EmptyString) []
  = (Raise RecursionError, []).
Proof.
  repeat split; try (vm_compute; reflexivity).
  vm_compute. discriminate.
Qed.

Lemma payment_gating_witness :
  @OpenAI.execute RefJson.lib (Example.openai false) "d3p_btc-price"
    (RefJson.dq "{'currency':'usd'}") (Example.remote 402 "Payment Required") []
  = (Ok (RefJson.dq
           "{'error': 'L402 payment required', 'status': 402, 'message': 'Service requires 5 sats via Lightning'}"),
     [dispatch_request "https://example.test/api/services/btc-price"
        (JObj [("currency", JStr "usd")]) false]).
Proof.
  apply (proj1 (proj2 (proj2 (proj2 (proj2 (@payment_gating RefJson.lib)))))
           (Example.openai false) "d3p_btc-price" (RefJson.dq "{'currency':'usd'}")
           (JObj [("service_id", JStr "btc-price");
                  ("endpoint", JStr "/api/services/btc-price");
                  ("pricing", JObj [("sats", JNum 5)]);
                  ("input_schema",
                   JObj [("properties",
                          JObj [("currency", JObj [("type", JStr "string")])])]);
                  ("_endpoint", JStr "https://example.test/api/services/btc-price")])
           (JObj [("currency", JStr "usd")])
           "https://example.test/api/services/btc-price"
           (Example.remote 402 "Payment Required") []
           {| status_code := 402; text := "Payment Required" |});
    reflexivity.
Defined.

Lemma unknown_tool_rejected_witness :
  @OpenAI.execute RefJson.lib (Example.openai true) "d3p_eth-price"
    (RefJson.dq "{'currency':'usd'}") (Example.remote 200 EmptyString) []
  = (Ok (RefJson.dq "{'error': 'Unknown function: d3p_eth-price'}"), []).
Proof.
  apply (@unknown_tool_rejected RefJson.lib (Example.openai true) "d3p_eth-price").
  reflexivity.
Defined.


Lemma mock_402_passed_through_witness :
  @OpenAI.execute RefJson.lib (Example.openai true) "d3p_btc-price"
    (RefJson.dq "{'currency':'usd'}") (Example.remote 402 "Payment Required") []
  = (Ok "Payment Required",
     [dispatch_request "https://example.test/api/services/btc-price"
        (JObj [("currency", JStr "usd")]) true]).
Proof.
  apply (proj1 (@mock_402_passed_through RefJson.lib)
           (Example.openai true) "d3p_btc-price" (RefJson.dq "{'currency':'usd'}")
           (JObj [("service_id", JStr "btc-price");
                  ("endpoint", JStr "/api/services/btc-price");
                  ("pricing", JObj [("sats", JNum 5)]);
                  ("input_schema",
                   JObj [("properties",
                          JObj [("currency", JObj [("type", JStr "string")])])]);
                  ("_endpoint", JStr "https://example.test/api/services/btc-price")])
           (JObj [("currency", JStr "usd")])
           "https://example.test/api/services/btc-price"
           (Example.remote 402 "Payment Required") []
           {| status_code := 402; text := "Payment Required" |});
    reflexivity.
Defined.

(* ===================================================================== *)
(** ** Loading and building *)
(* ===================================================================== *)

Lemma mapM_ok {A B} (f : A -> result B) (g : A -> B) (l : list A) :
  (forall x, In x l -> f x = Ok (g x)) -> mapM f l = Ok (map g l).
Proof.
  induction l as [|a l IH]; simpl; intros Hf.
  - reflexivity.
  - rewrite (Hf a (or_introl eq_refl)), IH; auto.
Qed.


(** What the format says of an entry, field by field. *)
Lemma wf_entry_fields (e : json) :
  wf_entry e = true ->
  exists d sid,
    e = JObj d /\
    dict_get "service_id" d = Some (JStr sid) /\
    absent_or is_str (dict_get "endpoint" d) = true /\
    absent_or is_str (dict_get "name" d) = true /\
    absent_or is_str (dict_get "description" d) = true /\
    absent_or is_str (dict_get "capability_category" d) = true /\
    absent_or wf_pricing (dict_get "pricing" d) = true /\
    absent_or wf_schema (dict_get "input_schema" d) = true.
Proof.
  destruct e as [| | | | |d]; try discriminate. simpl. intros Hwf.
  repeat (apply andb_prop in Hwf; destruct Hwf as [Hwf ?]).
  destruct (dict_get "service_id" d) as [[| | |sid| |]|] eqn:Hsid; try discriminate.
  exists d, sid. repeat split; assumption.
Qed.

Lemma wf_serviceId (d : dict) (sid : string) :
  dict_get "service_id" d = Some (JStr sid) -> serviceId (JObj d) = sid.
Proof. intros Hsid. unfold serviceId, str_field, field. now rewrite Hsid. Qed.

Lemma get_str_field (k default : string) (d : dict) :
  absent_or is_str (dict_get k d) = true ->
  py_get (JObj d) k (JStr default) = Ok (JStr (str_field_or k default (JObj d))).
Proof.
  unfold py_get, str_field_or, str_field, field.
  destruct (dict_get k d) as [[]|]; simpl; intros Hty;
    try discriminate; reflexivity.
Qed.

(** The schema lookup and the properties lookup, whatever the default
    schema, as long as the default declares no property. *)
Lemma get_properties (d : dict) (default : json) :
  absent_or wf_schema (dict_get "input_schema" d) = true ->
  py_get default "properties" (JObj []) = Ok (JObj []) ->
  exists s,
    py_get (JObj d) "input_schema" default = Ok s /\
    s = match dict_get "input_schema" d with Some s => s | None => default end /\
    py_get s "properties" (JObj []) = Ok (JObj (properties (JObj d))) /\
    forall kv, In kv (properties (JObj d)) -> is_obj (snd kv) = true.
Proof.
  intros Hty Hdefault. unfold py_get at 1, properties, field.
  destruct (dict_get "input_schema" d) as [s|]; simpl in Hty.
  - exists s. split; [reflexivity|]. split; [reflexivity|].
    destruct s as [| | | | |sd]; try discriminate. simpl in *.
    destruct (dict_get "properties" sd) as [ps|]; simpl in Hty.
    + destruct ps as [| | | | |ps]; try discriminate. split; [reflexivity|].
      intros kv Hin. simpl in Hty. rewrite forallb_forall in Hty. auto.
    + split; [reflexivity | intros kv []].
  - exists default. split; [reflexivity|]. split; [reflexivity|].
    split; [exact Hdefault | intros kv []].
Qed.

Lemma get_type_of (v : json) :
  is_obj v = true -> py_get v "type" (JStr EmptyString) = Ok (type_of v).
Proof. destruct v; try discriminate. reflexivity. Qed.

Lemma get_doc_of (v : json) :
  is_obj v = true -> py_get v "description" (type_of v) = Ok (doc_of v).
Proof. destruct v; try discriminate. reflexivity. Qed.

(** The tool that [D3PTool] builds from a well-formed entry. *)
Lemma langchain_build (e : json) (mock : bool) (base : string) :
  wf_entry e = true ->
  LangChain.D3PTool_init (JStr (serviceId e)) (Some e) mock base
  = Ok {| LangChain.name := "d3p_" ++ serviceId e;
          LangChain.description :=
            str_field_or "description" ("Call the " ++ serviceId e ++ " d3p service") e
              ++ " [" ++ category e ++ ", " ++ string_of_Z (priceSats e) ++ " sats]. "
              ++ "Input fields: " ++ str_or (input_fields e) "see docs" ++ ". "
              ++ "Pass a JSON string as payload.";
          LangChain.service_id := serviceId e;
          LangChain.endpoint := resolvedEndpoint base e;
          LangChain.pricing_sats := priceSats e;
          LangChain.mock_payments := mock;
          LangChain.base_url := base;
          LangChain.service_schema := inputSchema e |}.
Proof.
  intros Hwf.
  destruct (wf_entry_fields e Hwf)
    as (d & sid & -> & Hsid & Hep & Hname & Hdesc & Hcat & Hprice & Hschema).
  destruct (get_properties d (JObj []) Hschema eq_refl)
    as (s & Hs & Hs_eq & Hprops & Hobj).
  unfold LangChain.D3PTool_init.
  replace (entry_or_empty (Some (JObj d))) with (JObj d)
    by (destruct d; [discriminate | reflexivity]).
  change (py_str (JStr (serviceId (JObj d)))) with (serviceId (JObj d)).
  rewrite (get_str_field "endpoint" _ d Hep), (get_str_field "name" _ d Hname),
    (get_str_field "description" _ d Hdesc),
    (get_str_field "capability_category" _ d Hcat),
    (wf_pricing_sats _ Hwf), Hs.
  cbn [bind py_startswith]. rewrite Hprops. cbn [bind py_items].
  rewrite (mapM_ok _ (fun kv => fst kv ++ " (" ++ py_str (type_of (snd kv)) ++ ")"))
    by (intros kv Hin; now rewrite (get_type_of _ (Hobj kv Hin))).
  subst s. reflexivity.
Qed.

Lemma crewai_build (e : json) (mock : bool) (base : string) :
  wf_entry e = true ->
  CrewAI.D3PServiceTool_init (JStr (serviceId e)) (Some e) mock base
  = Ok {| CrewAI.name := "d3p_" ++ serviceId e;
          CrewAI.description :=
            str_field_or "description" ("Call the " ++ serviceId e ++ " d3p service") e
              ++ " [" ++ category e ++ ", " ++ string_of_Z (priceSats e) ++ " sats]. "
              ++ "Input fields: " ++ str_or (input_fields e) "see docs" ++ ". "
              ++ "Pass a JSON string as payload.";
          CrewAI.service_id := serviceId e;
          CrewAI.endpoint := resolvedEndpoint base e;
          CrewAI.pricing_sats := priceSats e;
          CrewAI.mock_payments := mock;
          CrewAI.base_url := base;
          CrewAI.service_schema := inputSchema e |}.
Proof.
  intros Hwf.
  destruct (wf_entry_fields e Hwf)
    as (d & sid & -> & Hsid & Hep & Hname & Hdesc & Hcat & Hprice & Hschema).
  destruct (get_properties d (JObj []) Hschema eq_refl)
    as (s & Hs & Hs_eq & Hprops & Hobj).
  unfold CrewAI.D3PServiceTool_init.
  replace (entry_or_empty (Some (JObj d))) with (JObj d)
    by (destruct d; [discriminate | reflexivity]).
  change (py_str (JStr (serviceId (JObj d)))) with (serviceId (JObj d)).
  rewrite (get_str_field "endpoint" _ d Hep), (get_str_field "name" _ d Hname),
    (get_str_field "description" _ d Hdesc),
    (get_str_field "capability_category" _ d Hcat),
    (wf_pricing_sats _ Hwf), Hs.
  cbn [bind py_startswith]. rewrite Hprops. cbn [bind py_items].
  rewrite (mapM_ok _ (fun kv => fst kv ++ " (" ++ py_str (type_of (snd kv)) ++ ")"))
    by (intros kv Hin; now rewrite (get_type_of _ (Hobj kv Hin))).
  subst s. reflexivity.
Qed.

Lemma wf_getitem_service_id (e : json) :
  wf_entry e = true -> py_getitem e "service_id" = Ok (JStr (serviceId e)).
Proof.
  intros Hwf. destruct (wf_entry_fields e Hwf) as (d & sid & -> & Hsid & _).
  rewrite (wf_serviceId d sid Hsid). simpl. now rewrite Hsid.
Qed.

(** One tool per entry, named after it, in the order of the manifest. *)
Lemma crewai_tools_of (manifest : list json) (mock : bool) (base : string) :
  Forall (fun e => wf_entry e = true) manifest ->
  exists tools,
    CrewAI.tools_of manifest mock base = Ok tools /\
    map CrewAI.name tools = map toolName manifest /\
    map CrewAI.endpoint tools = map (resolvedEndpoint base) manifest.
Proof.
  induction 1 as [|e manifest Hwf _ (tools & Htools & Hnames & Hurls)].
  - exists []. repeat split.
  - eexists. unfold CrewAI.tools_of in *. simpl.
    rewrite (wf_getitem_service_id e Hwf). cbn [bind].
    rewrite (crewai_build e mock base Hwf), Htools.
    split; [reflexivity|]. simpl. now rewrite Hnames, Hurls.
Qed.

Lemma langchain_tools_of (manifest : list json) (mock : bool) (base : string) :
  Forall (fun e => wf_entry e = true) manifest ->
  exists tools,
    LangChain.tools_of manifest mock base = Ok tools /\
    map LangChain.name tools = map toolName manifest /\
    map LangChain.endpoint tools = map (resolvedEndpoint base) manifest.
Proof.
  induction 1 as [|e manifest Hwf _ (tools & Htools & Hnames & Hurls)].
  - exists []. repeat split.
  - eexists. unfold LangChain.tools_of in *. simpl.
    rewrite (wf_getitem_service_id e Hwf). cbn [bind].
    rewrite (langchain_build e mock base Hwf), Htools.
    split; [reflexivity|]. simpl. now rewrite Hnames, Hurls.
Qed.

(** Distinct identifiers give distinct tool names. *)
Lemma toolName_inj (a b : json) : toolName a = toolName b -> serviceId a = serviceId b.
Proof. unfold toolName. apply append_inj_l. Qed.

Lemma NoDup_toolName (manifest : list json) :
  NoDup (map serviceId manifest) -> NoDup (map toolName manifest).
Proof.
  induction manifest as [|e manifest IH]; simpl; intros Hnd.
  - constructor.
  - inversion Hnd as [|? ? Hnotin Hrest]; subst. constructor; [|auto].
    rewrite in_map_iff. intros (e' & Heq & Hin).
    apply Hnotin. rewrite in_map_iff. exists e'. split; [|exact Hin].
    now apply toolName_inj.
Qed.

(** *** The table of the OpenAI adapter *)

Lemma field_with_endpoint (k base : string) (e : json) :
  k <> "_endpoint" -> field k (with_endpoint base e) = field k e.
Proof.
  intros Hk. destruct e; try reflexivity. simpl.
  now apply dict_get_set_other.
Qed.

Lemma endpoint_with_endpoint (base : string) (e : json) :
  is_obj e = true ->
  field "_endpoint" (with_endpoint base e) = Some (JStr (resolvedEndpoint base e)).
Proof.
  destruct e; try discriminate. intros _. simpl. apply dict_get_set_same.
Qed.

Lemma wf_with_endpoint (base : string) (e : json) :
  wf_entry e = true -> wf_entry (with_endpoint base e) = true.
Proof.
  destruct e as [| | | | |d]; try discriminate.
  unfold with_endpoint, wf_entry.
  now rewrite !dict_get_set_other by discriminate.
Qed.

Lemma openai_add_service (base : string) (services : dict) (e : json) :
  wf_entry e = true ->
  OpenAI.add_service base services e
  = Ok (dict_set (toolName e) (with_endpoint base e) services).
Proof.
  intros Hwf.
  destruct (wf_entry_fields e Hwf) as (d & sid & -> & Hsid & Hep & _).
  unfold OpenAI.add_service. rewrite (wf_getitem_service_id _ Hwf). cbn [bind].
  change (py_str (JStr (serviceId (JObj d)))) with (serviceId (JObj d)).
  rewrite (get_str_field "endpoint" _ d Hep). cbn [bind py_startswith py_items].
  unfold toolName, with_endpoint, resolvedEndpoint, entry_endpoint, str_field_or.
  destruct (String.prefix "http" _); reflexivity.
Qed.

Lemma openai_load_services (base : string) (manifest : list json) (services : dict) :
  Forall (fun e => wf_entry e = true) manifest ->
  NoDup (map toolName manifest) ->
  (forall e, In e manifest -> dict_get (toolName e) services = None) ->
  OpenAI.load_services base services manifest
  = Ok (services ++ map (fun e => (toolName e, with_endpoint base e)) manifest)%list.
Proof.
  intros Hwf. revert services.
  induction Hwf as [|e manifest Hwf _ IH]; intros services Hnd Hfresh; simpl.
  - now rewrite app_nil_r.
  - inversion Hnd as [|? ? Hnotin Hrest]; subst.
    rewrite (openai_add_service base services e Hwf). cbn [bind].
    rewrite (dict_set_fresh _ _ _ (Hfresh e (or_introl eq_refl))).
    rewrite IH; [now rewrite <- app_assoc | exact Hrest |].
    intros e' Hin. apply dict_get_None_keys. unfold keys.
    rewrite map_app, in_app_iff. simpl. intros [Hold | [Heq | []]].
    + apply (proj1 (dict_get_None_keys _ _) (Hfresh e' (or_intror Hin))). exact Hold.
    + apply Hnotin. rewrite Heq. now apply in_map.
Qed.

(** Looking a loaded service up by its tool name. *)
Lemma dict_get_loaded (base : string) (manifest : list json) (e : json) :
  NoDup (map toolName manifest) ->
  In e manifest ->
  dict_get (toolName e) (map (fun e => (toolName e, with_endpoint base e)) manifest)
  = Some (with_endpoint base e).
Proof.
  induction manifest as [|a manifest IH]; intros Hnd Hin; [contradiction|].
  inversion Hnd as [|? ? Hnotin Hrest]; subst. cbn [map dict_get].
  destruct (String.eqb_spec (toolName e) (toolName a)) as [Heq|Hne].
  - destruct Hin as [->|Hin]; [reflexivity|].
    exfalso. apply Hnotin. rewrite <- Heq. now apply in_map.
  - destruct Hin as [->|Hin]; [contradiction | auto].
Qed.

(** The resolved endpoint is the only thing the table adds to an entry. *)
Lemma str_field_or_with_endpoint (k default base : string) (e : json) :
  k <> "_endpoint" ->
  str_field_or k default (with_endpoint base e) = str_field_or k default e.
Proof.
  intros Hk. unfold str_field_or, str_field. now rewrite field_with_endpoint.
Qed.

Lemma serviceId_with_endpoint (base : string) (e : json) :
  serviceId (with_endpoint base e) = serviceId e.
Proof. unfold serviceId, str_field. now rewrite field_with_endpoint. Qed.

Lemma category_with_endpoint (base : string) (e : json) :
  category (with_endpoint base e) = category e.
Proof. unfold category, str_field. now rewrite field_with_endpoint. Qed.

Lemma priceSats_with_endpoint (base : string) (e : json) :
  priceSats (with_endpoint base e) = priceSats e.
Proof. unfold priceSats. now rewrite field_with_endpoint. Qed.

Lemma properties_with_endpoint (base : string) (e : json) :
  properties (with_endpoint base e) = properties e.
Proof. unfold properties. now rewrite field_with_endpoint. Qed.

Lemma openai_tool_definition (func_name : string) (svc : json) :
  wf_entry svc = true ->
  OpenAI.tool_definition func_name svc
  = Ok (JObj [("type", JStr "function");
              ("function",
               JObj [("name", JStr func_name);
                     ("description",
                      JStr (str_field_or "description" EmptyString svc ++ " ["
                              ++ category svc ++ ", "
                              ++ string_of_Z (priceSats svc) ++ " sats]"));
                     ("parameters",
                      JObj [("type", JStr "object");
                            ("properties", JObj (properties svc));
                            ("required",
                             JArr (map JStr (keys (properties svc))))])])]).
Proof.
  intros Hwf.
  destruct (wf_entry_fields svc Hwf)
    as (d & sid & -> & Hsid & Hep & Hname & Hdesc & Hcat & Hprice & Hschema).
  destruct (get_properties d
              (JObj [("type", JStr "object"); ("properties", JObj [])])
              Hschema eq_refl)
    as (s & Hs & _ & Hprops & _).
  unfold OpenAI.tool_definition.
  rewrite Hs. cbn [bind]. rewrite Hprops. cbn [bind py_items].
  rewrite (wf_pricing_sats _ Hwf), (get_str_field "capability_category" _ d Hcat),
    (get_str_field "description" _ d Hdesc).
  reflexivity.
Qed.

Lemma openai_service_summary (func_name : string) (svc : json) :
  wf_entry svc = true ->
  OpenAI.service_summary func_name svc
  = Ok (JObj [("function", JStr func_name);
              ("service_id", JStr (serviceId svc));
              ("name", JStr (str_field_or "name" EmptyString svc));
              ("category", JStr (category svc));
              ("sats", JNum (priceSats svc))]).
Proof.
  intros Hwf.
  destruct (wf_entry_fields svc Hwf)
    as (d & sid & -> & Hsid & Hep & Hname & Hdesc & Hcat & Hprice & Hschema).
  unfold OpenAI.service_summary.
  rewrite (wf_getitem_service_id _ Hwf), (get_str_field "name" _ d Hname),
    (get_str_field "capability_category" _ d Hcat), (wf_pricing_sats _ Hwf).
  reflexivity.
Qed.

(** *** The MCP server *)

Lemma table_set_fresh (k v : json) (t : list (json * json)) :
  Forall (fun kv => key_eqb k (fst kv) = false) t ->
  table_set k v t = (t ++ [(k, v)])%list.
Proof.
  induction 1 as [|[k' v'] t Hk _ IH]; simpl in *.
  - reflexivity.
  - now rewrite Hk, IH.
Qed.

Lemma mcp_summary_of (s : json) :
  wf_entry s = true ->
  MCP.summary_of s
  = Ok (JObj [("service_id", JStr (serviceId s));
              ("name", JStr (str_field_or "name" EmptyString s));
              ("category", JStr (category s));
              ("sats", JNum (priceSats s));
              ("description", JStr (str_field_or "description" EmptyString s))]).
Proof.
  intros Hwf.
  destruct (wf_entry_fields s Hwf)
    as (d & sid & -> & Hsid & Hep & Hname & Hdesc & Hcat & Hprice & Hschema).
  unfold MCP.summary_of.
  rewrite (wf_getitem_service_id _ Hwf), (get_str_field "name" _ d Hname),
    (get_str_field "capability_category" _ d Hcat), (wf_pricing_sats _ Hwf),
    (get_str_field "description" _ d Hdesc).
  reflexivity.
Qed.

Section McpLoad.
Context `{JsonLib}.
Variables (base : string) (mock : bool).

Lemma mcp_register_service (st : MCP.module_state) (e : json) :
  wf_entry e = true ->
  MCP.register_service base mock st e
  = Ok {| MCP._services :=
            table_set (JStr (serviceId e)) (with_endpoint base e) (MCP._services st);
          MCP.mcp_tools :=
            (MCP.mcp_tools st ++
               [{| MCP.tool_name := toolName e;
                   MCP.tool_description := summary e;
                   MCP.tool_fn :=
                     MCP._make_tool mock (JStr (serviceId e))
                       (resolvedEndpoint base e) (JNum (priceSats e))
                       (summary e) (param_doc e) |}])%list |}.
Proof.
  intros Hwf. pose proof (wf_with_endpoint base e Hwf) as Hwf'.
  destruct (wf_entry_fields e Hwf)
    as (d & sid & -> & Hsid & Hep & Hname & Hdesc & Hcat & Hprice & Hschema).
  destruct (wf_entry_fields _ Hwf')
    as (d' & sid' & Hd' & Hsid' & Hep' & Hname' & Hdesc' & Hcat' & Hprice' & Hschema').
  destruct (get_properties d' (JObj []) Hschema' eq_refl)
    as (s & Hs & _ & Hprops & Hobj).
  unfold MCP.register_service. rewrite (wf_getitem_service_id _ Hwf). cbn [bind].
  change (py_str (JStr (serviceId (JObj d)))) with (serviceId (JObj d)).
  rewrite (get_str_field "endpoint" _ d Hep). cbn [bind py_startswith py_items hashable].
  assert (Hresolved :
            (if negb (String.prefix "http"
                        (str_field_or "endpoint"
                           ("/api/services/" ++ serviceId (JObj d)) (JObj d)))
             then base ++ py_str (JStr (str_field_or "endpoint"
                           ("/api/services/" ++ serviceId (JObj d)) (JObj d)))
             else py_str (JStr (str_field_or "endpoint"
                           ("/api/services/" ++ serviceId (JObj d)) (JObj d))))
            = resolvedEndpoint base (JObj d)).
  { unfold resolvedEndpoint, entry_endpoint, str_field_or.
    destruct (String.prefix "http" _); reflexivity. }
  rewrite Hresolved.
  change (JObj (dict_set "_endpoint" (JStr (resolvedEndpoint base (JObj d))) d))
    with (with_endpoint base (JObj d)).
  rewrite (wf_pricing_sats _ Hwf'). cbn [bind]. rewrite Hd'.
  rewrite (get_str_field "capability_category" _ d' Hcat'),
    (get_str_field "description" _ d' Hdesc'), Hs.
  cbn [bind]. rewrite Hprops. cbn [bind py_items].
  rewrite (mapM_ok _ (fun kv => fst kv ++ ": " ++ py_str (doc_of (snd kv))))
    by (intros kv Hin; rewrite (get_type_of _ (Hobj kv Hin)); cbn [bind];
        now rewrite (get_doc_of _ (Hobj kv Hin))).
  cbn [bind]. rewrite <- Hd'.
  unfold summary, param_doc, toolName.
  rewrite !str_field_or_with_endpoint by discriminate.
  rewrite ?category_with_endpoint, ?priceSats_with_endpoint,
    ?properties_with_endpoint.
  reflexivity.
Qed.

Lemma mcp_register_all (manifest : list json) (st : MCP.module_state) :
  Forall (fun e => wf_entry e = true) manifest ->
  NoDup (map serviceId manifest) ->
  (forall e, In e manifest ->
     Forall (fun kv => key_eqb (JStr (serviceId e)) (fst kv) = false) (MCP._services st)) ->
  exists st',
    MCP.register_all base mock st manifest = Ok st' /\
    MCP._services st'
    = (MCP._services st
         ++ map (fun e => (JStr (serviceId e), with_endpoint base e)) manifest)%list /\
    map MCP.tool_name (MCP.mcp_tools st')
    = (map MCP.tool_name (MCP.mcp_tools st) ++ map toolName manifest)%list.
Proof.
  intros Hwf. revert st.
  induction Hwf as [|e manifest Hwf _ IH]; intros st Hnd Hfresh; simpl.
  - exists st. now rewrite !app_nil_r.
  - inversion Hnd as [|? ? Hnotin Hrest]; subst.
    rewrite (mcp_register_service st e Hwf). cbn [bind].
    rewrite (table_set_fresh _ _ _ (Hfresh e (or_introl eq_refl))).
    edestruct IH as (st' & Hrun & Hservices & Htools); [exact Hrest | | ].
    2:{ exists st'. split; [exact Hrun|]. rewrite Hservices, Htools. simpl.
        rewrite map_app. simpl. now rewrite <- !app_assoc. }
    intros e' Hin. simpl. apply Forall_app. split.
    + apply Hfresh. now right.
    + constructor; [|constructor]. simpl.
      apply String.eqb_neq. intros Heq. apply Hnotin. rewrite <- Heq.
      now apply in_map.
Qed.

End McpLoad.

(** The OpenAI adapter sends its request to the stored endpoint. *)
Lemma openai_execute_url `{JsonLib} (self : OpenAI.D3POpenAI) (name args url : string)
    (svc : json) (net : network) (log : list request) (req : request) :
  dict_get name (OpenAI._services self) = Some svc ->
  field "_endpoint" svc = Some (JStr url) ->
  In req (sent (OpenAI.execute self name args) net log) ->
  req_url req = url.
Proof.
  intros Hsvc Hurl. unfold sent, OpenAI.execute. rewrite Hsvc.
  destruct (truthy svc); simpl; [|rewrite skipn_length_self; intros []].
  destruct (json_decode args) as [data|[]];
    try (simpl; rewrite skipn_length_self; intros []).
  destruct svc as [| | | | |d]; try discriminate. simpl in Hurl.
  unfold io_bind, io_lift, py_getitem, requests_post, http. rewrite Hurl.
  destruct (net log _) as [resp|e].
  - destruct ((status_code resp =? 402) && negb (OpenAI.mock_payments self)).
    + destruct (pricing_sats_of (JObj d)); simpl; rewrite skipn_length_app;
        intros [<- | []]; reflexivity.
    + destruct (json_loads (text resp)); simpl; rewrite skipn_length_app;
        intros [<- | []]; reflexivity.
  - simpl. rewrite skipn_length_app. intros [<- | []]. reflexivity.
Qed.

Lemma langchain_run_url `{JsonLib} (self : LangChain.D3PTool) (payload : string)
    (net : network) (log : list request) (req : request) :
  In req (sent (LangChain._run self payload) net log) ->
  req_url req = LangChain.endpoint self.
Proof.
  unfold sent.
  destruct (langchain_run_log self payload net log) as [-> | (data & ->)].
  - rewrite skipn_length_self. intros [].
  - rewrite skipn_length_app. intros [<- | []]. reflexivity.
Qed.

Lemma NoDup_map_Some {A} (l : list A) : NoDup l -> NoDup (map Some l).
Proof.
  induction 1 as [|a l Hnotin _ IH]; simpl; constructor; [|exact IH].
  rewrite in_map_iff. intros (b & Heq & Hin). injection Heq as ->. contradiction.
Qed.

Section DiscoveryClaims.
Context `{JsonLib}.

(** C5.  From a manifest of N well-formed entries with pairwise distinct
    [service_id], discovery makes N tools: the OpenAI adapter N tool
    definitions and [discover_d3p_tools] N tools, each named "d3p_"
    followed by the identifier of its entry, in the order of the manifest,
    and no two with the same name. *)
Theorem discovery_one_tool_per_service (manifest : list json) (url base : string)
    (mock : bool) (net : network) (log log' : list request) :
  Forall (fun e => wf_entry e = true) manifest ->
  NoDup (map serviceId manifest) ->
  _fetch_manifest url net log = (Ok (JArr manifest), log') ->
  (exists self defs,
      OpenAI.init url base mock net log = (Ok self, log') /\
      OpenAI.tool_definitions self = Ok defs /\
      length defs = length manifest /\
      map definition_name defs = map (fun e => Some ("d3p_" ++ serviceId e)) manifest /\
      NoDup (map definition_name defs)) /\
  (exists tools,
      CrewAI.discover_d3p_tools url mock base net log = (Ok tools, log') /\
      length tools = length manifest /\
      map CrewAI.name tools = map (fun e => "d3p_" ++ serviceId e) manifest /\
      NoDup (map CrewAI.name tools)).
Proof.
  intros Hwf Hnd Hfetch. pose proof (NoDup_toolName manifest Hnd) as Hnames. split.
  - eexists; eexists. split.
    { unfold OpenAI.init, io_bind. rewrite Hfetch. unfold io_lift, py_iter.
      rewrite (openai_load_services base manifest [] Hwf Hnames)
        by reflexivity.
      reflexivity. }
    unfold OpenAI.tool_definitions. cbn [OpenAI._services app].
    rewrite (mapM_ok _
               (fun item =>
                  JObj [("type", JStr "function");
                        ("function",
                         JObj [("name", JStr (fst item));
                               ("description",
                                JStr (str_field_or "description" EmptyString (snd item)
                                        ++ " [" ++ category (snd item) ++ ", "
                                        ++ string_of_Z (priceSats (snd item)) ++ " sats]"));
                               ("parameters",
                                JObj [("type", JStr "object");
                                      ("properties", JObj (properties (snd item)));
                                      ("required",
                                       JArr (map JStr (keys (properties (snd item)))))])])])).
    2:{ intros item Hin. apply in_map_iff in Hin. destruct Hin as (e & <- & Hin).
        apply openai_tool_definition, wf_with_endpoint.
        rewrite Forall_forall in Hwf. auto. }
    split; [reflexivity|]. rewrite !length_map. split; [reflexivity|].
    rewrite !map_map. cbn [definition_name field dict_get String.eqb Ascii.eqb
                             Bool.eqb str_field fst].
    split; [reflexivity|].
    change (NoDup (map (fun e => Some (toolName e)) manifest)).
    rewrite <- map_map. now apply NoDup_map_Some.
  - destruct (crewai_tools_of manifest mock base Hwf) as (tools & Htools & Hn & _).
    exists tools. split.
    { unfold CrewAI.discover_d3p_tools, io_bind. rewrite Hfetch.
      unfold io_lift, py_iter. now rewrite Htools. }
    split; [|split].
    + rewrite <- (length_map CrewAI.name tools), Hn. apply length_map.
    + exact Hn.
    + now rewrite Hn.
Qed.

End DiscoveryClaims.

Lemma discovery_one_tool_per_service_witness :
  exists tools,
    @CrewAI.discover_d3p_tools RefJson.lib Example.manifestUrl true Example.baseUrl
      (Example.serving Example.two_services_text 200 EmptyString) []
    = (Ok tools,
       [{| req_method := GET; req_url := Example.manifestUrl; req_json := None;
           req_headers := []; req_timeout := 10 |}]) /\
    length tools = 2%nat /\
    map CrewAI.name tools = ["d3p_btc-price"; "d3p_eth-price"].
Proof.
  destruct (@discovery_one_tool_per_service RefJson.lib [Example.entry; Example.second]
              Example.manifestUrl Example.baseUrl true
              (Example.serving Example.two_services_text 200 EmptyString) []
              [{| req_method := GET; req_url := Example.manifestUrl;
                  req_json := None; req_headers := []; req_timeout := 10 |}])
    as [_ (tools & Hrun & Hlen & Hnames & _)].
  - constructor; [reflexivity | constructor; [reflexivity | constructor]].
  - constructor; [intros [Heq | []]; discriminate Heq
                 | constructor; [intros [] | constructor]].
  - reflexivity.
  - exists tools. auto.
Defined.

Section LoadClaims.
Context `{JsonLib}.

(** C6.  The endpoint of an entry is resolved when the entry is loaded: an
    endpoint that starts with "http" is kept, any other is appended to the
    base URL; the resolved endpoint is what the tool (LangChain) or the
    table (OpenAI) stores, and the only URL a dispatch sends a request to.
    The entry of the design document, with base URL "https://example.test",
    resolves to "https://example.test/api/services/btc-price". *)
Theorem endpoint_resolved_at_load :
  (forall e base mock,
      wf_entry e = true ->
      exists tool,
        LangChain.D3PTool_init (JStr (serviceId e)) (Some e) mock base = Ok tool /\
        LangChain.endpoint tool
        = (if String.prefix "http" (entry_endpoint e) then entry_endpoint e
           else base ++ entry_endpoint e) /\
        forall payload net log req,
          In req (sent (LangChain._run tool payload) net log) ->
          req_url req = LangChain.endpoint tool) /\
  (forall manifest base mock e,
      Forall (fun e => wf_entry e = true) manifest ->
      NoDup (map serviceId manifest) ->
      In e manifest ->
      exists services svc,
        OpenAI.load_services base [] manifest = Ok services /\
        dict_get ("d3p_" ++ serviceId e) services = Some svc /\
        field "_endpoint" svc
        = Some (JStr (if String.prefix "http" (entry_endpoint e) then entry_endpoint e
                      else base ++ entry_endpoint e)) /\
        forall arguments net log req,
          In req (sent (OpenAI.execute
                          {| OpenAI.base_url := base; OpenAI.mock_payments := mock;
                             OpenAI._services := services |}
                          ("d3p_" ++ serviceId e) arguments) net log) ->
          req_url req
          = (if String.prefix "http" (entry_endpoint e) then entry_endpoint e
             else base ++ entry_endpoint e)) /\
  (entry_endpoint Example.entry = "/api/services/btc-price" /\
   exists tool,
     LangChain.D3PTool_init (JStr "btc-price") (Some Example.entry) true
       "https://example.test" = Ok tool /\
     LangChain.endpoint tool = "https://example.test/api/services/btc-price").
Proof.
  split; [|split].
  - intros e base mock Hwf. eexists. split; [apply (langchain_build e mock base Hwf)|].
    split; [reflexivity|]. intros payload net log req. apply langchain_run_url.
  - intros manifest base mock e Hwf Hnd Hin.
    pose proof (NoDup_toolName manifest Hnd) as Hnames.
    assert (Hobj : is_obj e = true).
    { rewrite Forall_forall in Hwf. specialize (Hwf e Hin).
      destruct e; try discriminate; reflexivity. }
    eexists; exists (with_endpoint base e). split.
    { apply (openai_load_services base manifest [] Hwf Hnames). reflexivity. }
    split; [apply (dict_get_loaded base manifest e Hnames Hin)|].
    split; [apply (endpoint_with_endpoint base e Hobj)|].
    intros arguments net log req.
    apply (openai_execute_url _ _ _ _ (with_endpoint base e)).
    + apply (dict_get_loaded base manifest e Hnames Hin).
    + apply (endpoint_with_endpoint base e Hobj).
  - split; [reflexivity|]. eexists. split; reflexivity.
Qed.

End LoadClaims.

Lemma endpoint_resolved_at_load_witness :
  exists tool,
    LangChain.D3PTool_init (JStr "echo") (Some Example.bare) false "https://example.test"
    = Ok tool /\
    LangChain.endpoint tool = "https://example.test/api/services/echo".
Proof.
  destruct (proj1 (@endpoint_resolved_at_load RefJson.lib)
              Example.bare "https://example.test" false eq_refl)
    as (tool & Hbuild & Hurl & _).
  exists tool. split; [exact Hbuild | exact Hurl].
Defined.

Section BuilderClaims.
Context `{JsonLib}.

(** C7.  Building a tool from an entry of the manifest format never raises
    and reads nothing but the entry.  A missing field takes its default:
    price 0, empty category, the description "Call the <id> d3p service",
    no properties (and the empty object for the schema).  When the entry
    declares no property, the parameter schema of the OpenAI definition is
    the empty object schema, and the description of the LangChain tool and
    the docstring of the MCP tool say "see docs" where they would list the
    fields. *)
Theorem build_total_with_defaults :
  (forall e mock base,
      wf_entry e = true ->
      exists tool,
        LangChain.D3PTool_init (JStr (serviceId e)) (Some e) mock base = Ok tool /\
        LangChain.name tool = "d3p_" ++ serviceId e /\
        LangChain.pricing_sats tool = priceSats e /\
        LangChain.service_schema tool = inputSchema e /\
        LangChain.description tool
        = str_field_or "description" ("Call the " ++ serviceId e ++ " d3p service") e
            ++ " [" ++ category e ++ ", " ++ string_of_Z (priceSats e) ++ " sats]. "
            ++ "Input fields: " ++ str_or (input_fields e) "see docs" ++ ". "
            ++ "Pass a JSON string as payload." /\
        (field "pricing" e = None -> LangChain.pricing_sats tool = 0) /\
        (field "input_schema" e = None -> LangChain.service_schema tool = JObj []) /\
        (properties e = [] ->
         LangChain.description tool
         = str_field_or "description" ("Call the " ++ serviceId e ++ " d3p service") e
             ++ " [" ++ category e ++ ", " ++ string_of_Z (priceSats e) ++ " sats]. "
             ++ "Input fields: see docs. Pass a JSON string as payload.")) /\
  (forall sid mock base,
      LangChain.D3PTool_init (JStr sid) (Some (JObj [("service_id", JStr sid)])) mock base
      = Ok {| LangChain.name := "d3p_" ++ sid;
              LangChain.description :=
                ("Call the " ++ sid ++ " d3p service")
                  ++ " [, 0 sats]. Input fields: see docs. Pass a JSON string as payload.";
              LangChain.service_id := sid;
              LangChain.endpoint := base ++ "/api/services/" ++ sid;
              LangChain.pricing_sats := 0;
              LangChain.mock_payments := mock;
              LangChain.base_url := base;
              LangChain.service_schema := JObj [] |}) /\
  (forall base mock st e,
      wf_entry e = true ->
      exists st' tool,
        MCP.register_service base mock st e = Ok st' /\
        MCP.mcp_tools st' = (MCP.mcp_tools st ++ [tool])%list /\
        MCP.tool_name tool = "d3p_" ++ serviceId e /\
        MCP.__name__ (MCP.tool_fn tool) = "d3p_" ++ serviceId e /\
        MCP.__doc__ (MCP.tool_fn tool)
        = MCP.tool_description tool ++ ". Input (JSON string): "
            ++ str_or (param_doc e) "see docs" /\
        (properties e = [] ->
         MCP.__doc__ (MCP.tool_fn tool)
         = MCP.tool_description tool ++ ". Input (JSON string): see docs")) /\
  (forall func_name e,
      wf_entry e = true ->
      properties e = [] ->
      exists def function,
        OpenAI.tool_definition func_name e = Ok def /\
        field "function" def = Some function /\
        field "parameters" function
        = Some (JObj [("type", JStr "object");
                      ("properties", JObj []);
                      ("required", JArr [])])).
Proof.
  split; [|split; [|split]].
  - intros e mock base Hwf. eexists. split; [apply (langchain_build e mock base Hwf)|].
    cbn [LangChain.name LangChain.pricing_sats LangChain.service_schema
           LangChain.description].
    repeat split.
    + intros Hnone. unfold priceSats. now rewrite Hnone.
    + intros Hnone. unfold inputSchema. now rewrite Hnone.
    + intros Hnone. unfold input_fields. now rewrite Hnone.
  - intros sid mock base.
    rewrite <- (wf_serviceId [("service_id", JStr sid)] sid eq_refl) at 1.
    rewrite (langchain_build (JObj [("service_id", JStr sid)]) mock base eq_refl).
    reflexivity.
  - intros base mock st e Hwf. eexists; eexists.
    split; [apply (mcp_register_service base mock st e Hwf)|].
    cbn [MCP.mcp_tools MCP.tool_name MCP.tool_fn MCP.tool_description
           MCP._make_tool MCP.__doc__ MCP.__name__ py_str].
    repeat split.
    intros Hnone. unfold param_doc. now rewrite Hnone.
  - intros func_name e Hwf Hnone. eexists; eexists.
    split; [apply (openai_tool_definition func_name e Hwf)|].
    rewrite Hnone. split; reflexivity.
Qed.

(** C8.  The parameter schema the OpenAI adapter derives from a service is
    an object schema: its properties are those of the input schema of the
    service, and its required list is the list of their names, all of them
    and nothing else. *)
Theorem parameter_schema_all_required (func_name : string) (svc : json) :
  wf_entry svc = true ->
  exists def function,
    OpenAI.tool_definition func_name svc = Ok def /\
    field "function" def = Some function /\
    field "name" function = Some (JStr func_name) /\
    field "parameters" function
    = Some (JObj [("type", JStr "object");
                  ("properties", JObj (properties svc));
                  ("required", JArr (map JStr (keys (properties svc))))]) /\
    forall k, In (JStr k) (map JStr (keys (properties svc)))
              <-> exists v, In (k, v) (properties svc).
Proof.
  intros Hwf. eexists; eexists.
  split; [apply (openai_tool_definition func_name svc Hwf)|].
  repeat split.
  - rewrite in_map_iff. intros (k' & Heq & Hin). injection Heq as ->.
    unfold keys in Hin. rewrite in_map_iff in Hin.
    destruct Hin as ([k' v] & <- & Hin). now exists v.
  - intros (v & Hin). apply in_map. unfold keys.
    change k with (fst (k, v)). now apply in_map.
Qed.

End BuilderClaims.

Lemma build_total_with_defaults_witness :
  exists tool,
    LangChain.D3PTool_init (JStr "echo") (Some Example.bare) true Example.baseUrl
    = Ok tool /\
    LangChain.name tool = "d3p_echo" /\
    LangChain.pricing_sats tool = 0 /\
    LangChain.service_schema tool = JObj [] /\
    LangChain.description tool
    = "Call the echo d3p service [, 0 sats]. Input fields: see docs. Pass a JSON string as payload.".
Proof.
  destruct (proj1 (@build_total_with_defaults RefJson.lib)
              Example.bare true Example.baseUrl eq_refl)
    as (tool & Hbuild & Hname & Hprice & Hschema & _ & _ & _ & Hdocs).
  exists tool. repeat split; try assumption. exact (Hdocs eq_refl).
Defined.

Lemma parameter_schema_all_required_witness :
  exists def function,
    OpenAI.tool_definition "d3p_btc-price" Example.entry = Ok def /\
    field "function" def = Some function /\
    field "parameters" function
    = Some (JObj [("type", JStr "object");
                  ("properties", JObj [("currency", JObj [("type", JStr "string")])]);
                  ("required", JArr [JStr "currency"])]).
Proof.
  destruct (parameter_schema_all_required "d3p_btc-price" Example.entry eq_refl)
    as (def & function & Hdef & Hfn & _ & Hparams & _).
  exists def, function. repeat split; assumption.
Defined.

(** Outside the manifest format the builders are partial: a [pricing] that
    is [null] has no [get]. *)
Remark build_outside_the_format :
  LangChain.D3PTool_init (JStr "echo")
    (Some (JObj [("service_id", JStr "echo"); ("pricing", JNull)])) true Example.baseUrl
  = Raise AttributeError.
Proof. reflexivity. Qed.

(* ===================================================================== *)
(** ** The listing *)
(* ===================================================================== *)

Lemma mcp_summaries (base : string) (manifest : list json) :
  Forall (fun e => wf_entry e = true) manifest ->
  mapM MCP.summary_of (map (with_endpoint base) manifest)
  = Ok (map (fun e =>
               JObj [("service_id", JStr (serviceId e));
                     ("name", JStr (str_field_or "name" EmptyString e));
                     ("category", JStr (category e));
                     ("sats", JNum (priceSats e));
                     ("description", JStr (str_field_or "description" EmptyString e))])
          manifest).
Proof.
  induction 1 as [|e manifest Hwf _ IH]; [reflexivity|].
  cbn [map mapM].
  rewrite (mcp_summary_of _ (wf_with_endpoint base e Hwf)), IH.
  rewrite !str_field_or_with_endpoint by discriminate.
  now rewrite serviceId_with_endpoint, category_with_endpoint, priceSats_with_endpoint.
Qed.

Lemma openai_summaries (base : string) (manifest : list json) :
  Forall (fun e => wf_entry e = true) manifest ->
  mapM (fun item => OpenAI.service_summary (fst item) (snd item))
    (map (fun e => (toolName e, with_endpoint base e)) manifest)
  = Ok (map (fun e =>
               JObj [("function", JStr ("d3p_" ++ serviceId e));
                     ("service_id", JStr (serviceId e));
                     ("name", JStr (str_field_or "name" EmptyString e));
                     ("category", JStr (category e));
                     ("sats", JNum (priceSats e))])
          manifest).
Proof.
  induction 1 as [|e manifest Hwf _ IH]; [reflexivity|].
  cbn [map mapM fst snd].
  rewrite (openai_service_summary _ _ (wf_with_endpoint base e Hwf)), IH.
  rewrite !str_field_or_with_endpoint by discriminate.
  now rewrite serviceId_with_endpoint, category_with_endpoint, priceSats_with_endpoint.
Qed.

Section ListingClaims.
Context `{JsonLib}.

(** C9 (amended).  [list_services] is a function of the loaded table
    alone: it sends nothing and returns no new table.  For a manifest of
    well-formed entries with distinct identifiers it returns one record per
    entry, in the order of the manifest: the MCP server a record with
    exactly the fields [service_id], [name], [category], [sats],
    [description]; the OpenAI adapter one with [function], [service_id],
    [name], [category], [sats].  The [name] of an entry that has none is
    the empty string. *)
Theorem listing_projects_the_table :
  (forall manifest base mock,
      Forall (fun e => wf_entry e = true) manifest ->
      NoDup (map serviceId manifest) ->
      exists st,
        MCP.register_all base mock {| MCP._services := []; MCP.mcp_tools := [] |} manifest
        = Ok st /\
        MCP.list_services st
        = Ok (json_dumps_indent 2
                (JArr (map (fun e =>
                              JObj [("service_id", JStr (serviceId e));
                                    ("name", JStr (str_field_or "name" EmptyString e));
                                    ("category", JStr (category e));
                                    ("sats", JNum (priceSats e));
                                    ("description",
                                     JStr (str_field_or "description" EmptyString e))])
                         manifest)))) /\
  (forall manifest base mock,
      Forall (fun e => wf_entry e = true) manifest ->
      NoDup (map serviceId manifest) ->
      exists services,
        OpenAI.load_services base [] manifest = Ok services /\
        OpenAI.list_services
          {| OpenAI.base_url := base; OpenAI.mock_payments := mock;
             OpenAI._services := services |}
        = Ok (map (fun e =>
                     JObj [("function", JStr ("d3p_" ++ serviceId e));
                           ("service_id", JStr (serviceId e));
                           ("name", JStr (str_field_or "name" EmptyString e));
                           ("category", JStr (category e));
                           ("sats", JNum (priceSats e))])
                manifest)) /\
  (forall e, field "name" e = None -> str_field_or "name" EmptyString e = EmptyString).
Proof.
  split; [|split].
  - intros manifest base mock Hwf Hnd.
    destruct (mcp_register_all base mock manifest
                {| MCP._services := []; MCP.mcp_tools := [] |} Hwf Hnd)
      as (st & Hrun & Hservices & _); [intros e _; constructor|].
    exists st. split; [exact Hrun|].
    unfold MCP.list_services. rewrite Hservices. cbn [MCP._services app].
    rewrite map_map. cbn [snd].
    change (map (fun e => with_endpoint base e) manifest)
      with (map (with_endpoint base) manifest).
    now rewrite (mcp_summaries base manifest Hwf).
  - intros manifest base mock Hwf Hnd. eexists. split.
    { apply (openai_load_services base manifest [] Hwf (NoDup_toolName _ Hnd)).
      reflexivity. }
    unfold OpenAI.list_services. cbn [OpenAI._services app].
    apply (openai_summaries base manifest Hwf).
  - intros e Hnone. unfold str_field_or, str_field. now rewrite Hnone.
Qed.

End ListingClaims.

Lemma listing_projects_the_table_witness :
  exists st,
    @MCP.register_all RefJson.lib Example.baseUrl true
      {| MCP._services := []; MCP.mcp_tools := [] |} [Example.entry; Example.second]
    = Ok st /\
    @MCP.list_services RefJson.lib st
    = Ok (RefJson.dumps_indent 2
            (JArr [JObj [("service_id", JStr "btc-price");
                         ("name", JStr EmptyString);
                         ("category", JStr EmptyString);
                         ("sats", JNum 5);
                         ("description", JStr EmptyString)];
                   JObj [("service_id", JStr "eth-price");
                         ("name", JStr "ETH price");
                         ("category", JStr "market");
                         ("sats", JNum 7);
                         ("description", JStr "Ether spot price")]])).
Proof.
  destruct (proj1 (@listing_projects_the_table RefJson.lib)
              [Example.entry; Example.second] Example.baseUrl true)
    as (st & Hrun & Hlist).
  - constructor; [reflexivity | constructor; [reflexivity | constructor]].
  - constructor; [intros [Heq | []]; discriminate Heq
                 | constructor; [intros [] | constructor]].
  - exists st. split; [exact Hrun | exact Hlist].
Defined.

(** C9, as stated, fails: the entry of the design document has no [name],
    and both listings give it the empty name, not its identifier. *)
Lemma listing_name_counterexample :
  field "name" Example.entry = None /\
  serviceId Example.entry = "btc-price" /\
  bind (fst (@MCP.import RefJson.lib Example.manifestUrl Example.baseUrl true
               (Example.remote 200 EmptyString) []))
    (fun st => mapM MCP.summary_of (map snd (MCP._services st)))
  = Ok [JObj [("service_id", JStr "btc-price");
              ("name", JStr EmptyString);
              ("category", JStr EmptyString);
              ("sats", JNum 5);
              ("description", JStr EmptyString)]] /\
  OpenAI.list_services (Example.openai true)
  = Ok [JObj [("function", JStr "d3p_btc-price");
              ("service_id", JStr "btc-price");
              ("name", JStr EmptyString);
              ("category", JStr EmptyString);
              ("sats", JNum 5)]] /\
  JStr EmptyString <> JStr (serviceId Example.entry).
Proof.
  repeat split; try (vm_compute; reflexivity).
  vm_compute. discriminate.
Qed.

(* ===================================================================== *)
(** ** Further properties: fetching and dispatching *)
(* ===================================================================== *)

Section FetchProperties.
Context `{JsonLib}.

(** A manifest fetch makes one GET of the URL and nothing else, whatever
    comes of it. *)
Lemma fetch_manifest_log (url : string) (net : network) (log : list request) :
  snd (_fetch_manifest url net log) = (log ++ [fetch_request url])%list.
Proof.
  unfold _fetch_manifest, io_bind, io_lift, requests_get, http, fetch_request,
    raise_for_status, resp_json.
  destruct (net log _) as [resp|e]; [|reflexivity].
  destruct ((400 <=? status_code resp) && (status_code resp <? 600));
    [reflexivity|].
  destruct (json_decode (text resp)); reflexivity.
Qed.

(** What follows a fetch in a discovery touches no network. *)
Lemma after_fetch {A} (url : string) (k : json -> result A)
    (net : network) (log : list request) :
  io_bind (_fetch_manifest url) (fun fetched => io_lift (k fetched)) net log
  = (bind (fst (_fetch_manifest url net log)) k, (log ++ [fetch_request url])%list).
Proof.
  unfold io_bind, io_lift. rewrite <- (fetch_manifest_log url net log).
  destruct (_fetch_manifest url net log) as [[fetched|e] log']; reflexivity.
Qed.

Lemma openai_init_after_fetch (url base : string) (mock : bool)
    (net : network) (log : list request) :
  OpenAI.init url base mock net log
  = (bind (fst (_fetch_manifest url net log))
       (fun fetched =>
          bind (py_iter fetched)
            (fun manifest =>
               bind (OpenAI.load_services base [] manifest)
                 (fun services =>
                    Ok {| OpenAI.base_url := base; OpenAI.mock_payments := mock;
                          OpenAI._services := services |}))),
     (log ++ [fetch_request url])%list).
Proof.
  rewrite <- (after_fetch url _ net log). unfold OpenAI.init, io_bind, io_lift, io_ret.
  destruct (_fetch_manifest url net log) as [[fetched|e] log']; [|reflexivity].
  destruct (py_iter fetched) as [manifest|e]; [|reflexivity]. cbn [bind].
  destruct (OpenAI.load_services base [] manifest); reflexivity.
Qed.

Lemma langchain_from_manifest_after_fetch (url base : string) (mock : bool)
    (net : network) (log : list request) :
  LangChain.from_manifest url mock base net log
  = (bind (fst (_fetch_manifest url net log))
       (fun fetched =>
          bind (py_iter fetched)
            (fun services => LangChain.tools_of services mock base)),
     (log ++ [fetch_request url])%list).
Proof.
  rewrite <- (after_fetch url _ net log).
  unfold LangChain.from_manifest, io_bind, io_lift.
  destruct (_fetch_manifest url net log) as [[fetched|e] log']; [|reflexivity].
  destruct (py_iter fetched) as [manifest|e]; reflexivity.
Qed.

Lemma crewai_discover_after_fetch (url base : string) (mock : bool)
    (net : network) (log : list request) :
  CrewAI.discover_d3p_tools url mock base net log
  = (bind (fst (_fetch_manifest url net log))
       (fun fetched =>
          bind (py_iter fetched)
            (fun services => CrewAI.tools_of services mock base)),
     (log ++ [fetch_request url])%list).
Proof.
  rewrite <- (after_fetch url _ net log).
  unfold CrewAI.discover_d3p_tools, io_bind, io_lift.
  destruct (_fetch_manifest url net log) as [[fetched|e] log']; [|reflexivity].
  destruct (py_iter fetched) as [manifest|e]; reflexivity.
Qed.

Lemma mcp_import_after_fetch (url base : string) (mock : bool)
    (net : network) (log : list request) :
  MCP.import url base mock net log
  = (bind (fst (_fetch_manifest url net log))
       (fun fetched =>
          bind (py_iter fetched)
            (fun manifest =>
               MCP.register_all base mock
                 {| MCP._services := []; MCP.mcp_tools := [] |} manifest)),
     (log ++ [fetch_request url])%list).
Proof.
  rewrite <- (after_fetch url _ net log).
  unfold MCP.import, io_bind, io_lift.
  destruct (_fetch_manifest url net log) as [[fetched|e] log']; [|reflexivity].
  destruct (py_iter fetched) as [manifest|e]; reflexivity.
Qed.

(** X2.  Whatever the remote side answers, each of the four discoveries
    sends exactly one request, the GET of the manifest; and when the fetch
    raises, the discovery raises the same exception: no adapter is built
    from a manifest that could not be fetched. *)
Theorem discovery_sends_one_get (url base : string) (mock : bool)
    (net : network) (log : list request) :
  sent (OpenAI.init url base mock) net log = [fetch_request url] /\
  sent (LangChain.from_manifest url mock base) net log = [fetch_request url] /\
  sent (CrewAI.discover_d3p_tools url mock base) net log = [fetch_request url] /\
  sent (MCP.import url base mock) net log = [fetch_request url] /\
  (forall e,
      fst (_fetch_manifest url net log) = Raise e ->
      fst (OpenAI.init url base mock net log) = Raise e /\
      fst (LangChain.from_manifest url mock base net log) = Raise e /\
      fst (CrewAI.discover_d3p_tools url mock base net log) = Raise e /\
      fst (MCP.import url base mock net log) = Raise e).
Proof.
  unfold sent.
  rewrite openai_init_after_fetch, langchain_from_manifest_after_fetch,
    crewai_discover_after_fetch, mcp_import_after_fetch.
  cbn [fst snd]. rewrite !skipn_length_app.
  repeat split; try (match goal with He : _ = Raise _ |- _ => now rewrite He end).
Qed.

(** X3.  A dispatch sends a request exactly when its arguments decode (and,
    for the OpenAI adapter, the function is in the table): one POST of the
    decoded arguments to the endpoint, with the headers of the payment mode
    and timeout 15.  This holds whatever the remote side does: no answer
    and no failure makes a dispatch send a second request, and the earlier
    log is left as it was. *)
Theorem dispatch_sends_decoded_arguments (net : network) (log : list request) :
  (forall (self : OpenAI.D3POpenAI) function_name arguments,
      sent (OpenAI.execute self function_name arguments) net log
      = match dict_get function_name (OpenAI._services self),
              json_loads arguments with
        | Some svc, Some data =>
            match truthy svc, field "_endpoint" svc with
            | true, Some (JStr url) =>
                [dispatch_request url data (OpenAI.mock_payments self)]
            | _, _ => []
            end
        | _, _ => []
        end /\
      snd (OpenAI.execute self function_name arguments net log)
      = (log ++ sent (OpenAI.execute self function_name arguments) net log)%list) /\
  (forall (self : LangChain.D3PTool) payload,
      sent (LangChain._run self payload) net log
      = match json_loads payload with
        | Some data =>
            [dispatch_request (LangChain.endpoint self) data (LangChain.mock_payments self)]
        | None => []
        end /\
      snd (LangChain._run self payload net log)
      = (log ++ sent (LangChain._run self payload) net log)%list) /\
  (forall (self : CrewAI.D3PServiceTool) payload,
      sent (CrewAI._run self payload) net log
      = match json_loads payload with
        | Some data =>
            [dispatch_request (CrewAI.endpoint self) data (CrewAI.mock_payments self)]
        | None => []
        end /\
      snd (CrewAI._run self payload net log)
      = (log ++ sent (CrewAI._run self payload) net log)%list) /\
  (forall mock sid endpoint sats desc param_doc params,
      sent (MCP.call (MCP._make_tool mock sid endpoint sats desc param_doc) params) net log
      = match json_loads params with
        | Some data => [dispatch_request endpoint data mock]
        | None => []
        end /\
      snd (MCP.call (MCP._make_tool mock sid endpoint sats desc param_doc) params net log)
      = (log ++ sent (MCP.call (MCP._make_tool mock sid endpoint sats desc param_doc) params)
                  net log)%list).
Proof.
  assert (Hrun : forall (self : LangChain.D3PTool) payload,
             snd (LangChain._run self payload net log)
             = (log ++ match json_loads payload with
                       | Some data =>
                           [dispatch_request (LangChain.endpoint self) data
                              (LangChain.mock_payments self)]
                       | None => []
                       end)%list).
  { intros self payload. unfold LangChain._run, json_loads.
    destruct (json_decode payload) as [data|[]]; try (simpl; now rewrite app_nil_r).
    unfold io_bind, requests_post, http, dispatch_request.
    destruct (net log _) as [resp|e]; [|reflexivity].
    destruct ((status_code resp =? 402) && negb (LangChain.mock_payments self)).
    - reflexivity.
    - destruct (json_decode (text resp)); reflexivity. }
  split; [|split; [|split]].
  - intros self function_name arguments.
    assert (Hlog : snd (OpenAI.execute self function_name arguments net log)
                   = (log ++ match dict_get function_name (OpenAI._services self),
                                   json_loads arguments with
                             | Some svc, Some data =>
                                 match truthy svc, field "_endpoint" svc with
                                 | true, Some (JStr url) =>
                                     [dispatch_request url data (OpenAI.mock_payments self)]
                                 | _, _ => []
                                 end
                             | _, _ => []
                             end)%list).
    { unfold OpenAI.execute, json_loads.
      destruct (dict_get function_name (OpenAI._services self)) as [svc|];
        [|simpl; now rewrite app_nil_r].
      destruct (truthy svc); simpl.
      2:{ destruct (json_decode arguments); now rewrite app_nil_r. }
      destruct (json_decode arguments) as [data|[]];
        try (simpl; now rewrite app_nil_r).
      unfold io_bind, io_lift, py_getitem, field.
      destruct svc as [| | | | |d]; try (simpl; now rewrite app_nil_r).
      destruct (dict_get "_endpoint" d) as [endpoint|]; [|simpl; now rewrite app_nil_r].
      destruct endpoint as [| | |url| |]; try (simpl; now rewrite app_nil_r).
      unfold requests_post, http, dispatch_request.
      destruct (net log _) as [resp|e]; [|reflexivity].
      destruct ((status_code resp =? 402) && negb (OpenAI.mock_payments self)).
      - destruct (pricing_sats_of (JObj d)); reflexivity.
      - destruct (json_decode (text resp)); reflexivity. }
    unfold sent. rewrite Hlog, skipn_length_app. split; reflexivity.
  - intros self payload. unfold sent. rewrite Hrun, skipn_length_app.
    split; reflexivity.
  - intros self payload. rewrite crewai_run_as_langchain. unfold sent.
    rewrite Hrun, skipn_length_app. split; reflexivity.
  - intros mock sid endpoint sats desc param_doc params.
    assert (Hlog : snd (MCP.call (MCP._make_tool mock sid endpoint sats desc param_doc)
                          params net log)
                   = (log ++ match json_loads params with
                             | Some data => [dispatch_request endpoint data mock]
                             | None => []
                             end)%list).
    { simpl. unfold json_loads.
      destruct (json_decode params) as [data|[]]; try (simpl; now rewrite app_nil_r).
      unfold io_bind, MCP._call_service, io_bind, requests_post, http, dispatch_request.
      destruct (net log _) as [resp|e]; [|reflexivity].
      destruct ((status_code resp =? 402) && negb mock).
      - reflexivity.
      - unfold json_loads. destruct (json_decode (text resp)); reflexivity. }
    unfold sent. rewrite Hlog, skipn_length_app. split; reflexivity.
Qed.

(** X4.  The adapters do not catch a failure of the transport: when
    [requests.post] raises (connection refused, timeout), the dispatch
    raises the same exception, after that one request. *)
Theorem dispatch_transport_failure_raises (net : network) (log : list request)
    (e : exn) :
  (forall (self : OpenAI.D3POpenAI) function_name arguments svc data url,
      dict_get function_name (OpenAI._services self) = Some svc ->
      truthy svc = true ->
      field "_endpoint" svc = Some (JStr url) ->
      json_loads arguments = Some data ->
      net log (dispatch_request url data (OpenAI.mock_payments self)) = Failure e ->
      OpenAI.execute self function_name arguments net log
      = (Raise e, (log ++ [dispatch_request url data (OpenAI.mock_payments self)])%list)) /\
  (forall (self : LangChain.D3PTool) payload data,
      json_loads payload = Some data ->
      net log (dispatch_request (LangChain.endpoint self) data
                 (LangChain.mock_payments self)) = Failure e ->
      LangChain._run self payload net log
      = (Raise e,
         (log ++ [dispatch_request (LangChain.endpoint self) data
                    (LangChain.mock_payments self)])%list)) /\
  (forall (self : CrewAI.D3PServiceTool) payload data,
      json_loads payload = Some data ->
      net log (dispatch_request (CrewAI.endpoint self) data
                 (CrewAI.mock_payments self)) = Failure e ->
      CrewAI._run self payload net log
      = (Raise e,
         (log ++ [dispatch_request (CrewAI.endpoint self) data
                    (CrewAI.mock_payments self)])%list)) /\
  (forall mock sid endpoint sats desc param_doc params data,
      json_loads params = Some data ->
      net log (dispatch_request endpoint data mock) = Failure e ->
      MCP.call (MCP._make_tool mock sid endpoint sats desc param_doc) params net log
      = (Raise e, (log ++ [dispatch_request endpoint data mock])%list)).
Proof.
  split; [|split; [|split]].
  - intros self function_name arguments svc data url Hsvc Htruthy Hurl Hargs Hnet.
    unfold OpenAI.execute. rewrite Hsvc, Htruthy, (json_loads_Some _ _ Hargs). simpl.
    destruct svc as [| | | | |d]; try discriminate. simpl in Hurl.
    unfold io_bind, io_lift, py_getitem, requests_post, http, dispatch_request in *.
    now rewrite Hurl, Hnet.
  - intros self payload data Hargs Hnet. unfold LangChain._run. rewrite (json_loads_Some _ _ Hargs).
    unfold io_bind, requests_post, http, dispatch_request in *. now rewrite Hnet.
  - intros self payload data Hargs Hnet. unfold CrewAI._run. rewrite (json_loads_Some _ _ Hargs).
    unfold io_bind, requests_post, http, dispatch_request in *. now rewrite Hnet.
  - intros mock sid endpoint sats desc param_doc params data Hargs Hnet.
    simpl. rewrite (json_loads_Some _ _ Hargs).
    unfold io_bind, MCP._call_service, io_bind, requests_post, http, dispatch_request in *.
    now rewrite Hnet.
Qed.

End FetchProperties.

Lemma discovery_sends_one_get_witness :
  fst (@OpenAI.init RefJson.lib Example.manifestUrl Example.baseUrl true
         (fun _ _ => Answer {| status_code := 503; text := Example.manifest_text |}) [])
  = Raise (HTTPError 503).
Proof.
  apply (proj2 (proj2 (proj2 (proj2
           (@discovery_sends_one_get RefJson.lib Example.manifestUrl Example.baseUrl true
              (fun _ _ => Answer {| status_code := 503; text := Example.manifest_text |})
              []))))
           (HTTPError 503)).
  reflexivity.
Defined.

Lemma dispatch_transport_failure_raises_witness :
  @LangChain._run RefJson.lib (Example.tool false) (RefJson.dq "{'currency':'usd'}")
    (fun _ _ => Failure Timeout) []
  = (Raise Timeout,
     [dispatch_request "https://example.test/api/services/btc-price"
        (JObj [("currency", JStr "usd")]) false]).
Proof.
  apply (proj1 (proj2 (@dispatch_transport_failure_raises RefJson.lib
                         (fun _ _ => Failure Timeout) [] Timeout))
           (Example.tool false) (RefJson.dq "{'currency':'usd'}")
           (JObj [("currency", JStr "usd")]));
    reflexivity.
Defined.

(* ===================================================================== *)
(** ** Further properties: manifests that are not as expected *)
(* ===================================================================== *)

Lemma dict_get_set (k k' : string) (v : json) (d : dict) :
  dict_get k (dict_set k' v d) = if (k' =? k)%string then Some v else dict_get k d.
Proof.
  destruct (String.eqb_spec k' k) as [->|Hne].
  - apply dict_get_set_same.
  - apply dict_get_set_other. congruence.
Qed.

Lemma keys_dict_set_In (k k' : string) (v : json) (d : dict) :
  In k (keys (dict_set k' v d)) <-> k = k' \/ In k (keys d).
Proof.
  induction d as [|[k0 v0] d IH]; simpl.
  - intuition congruence.
  - destruct (String.eqb_spec k' k0) as [->|Hne]; simpl.
    + intuition congruence.
    + rewrite IH. intuition congruence.
Qed.

Lemma dict_set_NoDup (k : string) (v : json) (d : dict) :
  NoDup (keys d) -> NoDup (keys (dict_set k v d)).
Proof.
  induction d as [|[k0 v0] d IH]; simpl; intros Hnd.
  - constructor; [intros [] | constructor].
  - inversion Hnd as [|? ? Hnotin Hrest]; subst.
    destruct (String.eqb_spec k k0) as [->|Hne]; simpl.
    + now constructor.
    + constructor; [|auto].
      change (~ In k0 (keys (dict_set k v d))). rewrite keys_dict_set_In.
      intros [Heq|Hin]; [congruence | contradiction].
Qed.

Lemma dict_set_length (k : string) (v : json) (d : dict) :
  (length (dict_set k v d) <= S (length d))%nat.
Proof.
  induction d as [|[k0 v0] d IH]; simpl; [lia|].
  destruct (String.eqb k k0); simpl; lia.
Qed.

Lemma dict_set_Forall (P : string * json -> Prop) (k : string) (v : json) (d : dict) :
  Forall P d -> P (k, v) -> Forall P (dict_set k v d).
Proof.
  induction 1 as [|[k0 v0] d Hhd Htl IH]; simpl; intros Hkv.
  - now constructor.
  - destruct (String.eqb k k0).
    + now constructor.
    + constructor; [exact Hhd | exact (IH Hkv)].
Qed.

(** Loading is a fold of dictionary updates. *)
Lemma openai_load_fold (base : string) (manifest : list json) (services : dict) :
  Forall (fun e => wf_entry e = true) manifest ->
  OpenAI.load_services base services manifest
  = Ok (fold_left (fun t e => dict_set (toolName e) (with_endpoint base e) t)
          manifest services).
Proof.
  intros Hwf. revert services.
  induction Hwf as [|e manifest Hwf _ IH]; intros services; simpl.
  - reflexivity.
  - rewrite (openai_add_service base services e Hwf). cbn [bind]. apply IH.
Qed.

Lemma find_app_last {A} (p : A -> bool) (l : list A) (a : A) :
  find p (l ++ [a])
  = match find p l with
    | Some x => Some x
    | None => if p a then Some a else None
    end.
Proof.
  induction l as [|b l IH]; simpl.
  - reflexivity.
  - destruct (p b); [reflexivity | exact IH].
Qed.

Lemma loaded_lookup (base name : string) (manifest : list json) (services : dict) :
  dict_get name
    (fold_left (fun t e => dict_set (toolName e) (with_endpoint base e) t)
       manifest services)
  = match last_named name manifest with
    | Some e => Some (with_endpoint base e)
    | None => dict_get name services
    end.
Proof.
  revert services. unfold last_named.
  induction manifest as [|e manifest IH]; intros services; cbn [fold_left rev].
  - reflexivity.
  - rewrite IH, find_app_last, dict_get_set.
    destruct (find _ (rev manifest)); [reflexivity|].
    destruct (toolName e =? name)%string; reflexivity.
Qed.

Lemma loaded_invariant (base : string) (manifest : list json) (services : dict)
    (P : string * json -> Prop) :
  Forall P services ->
  (forall e, In e manifest -> P (toolName e, with_endpoint base e)) ->
  Forall P (fold_left (fun t e => dict_set (toolName e) (with_endpoint base e) t)
              manifest services).
Proof.
  revert services.
  induction manifest as [|e manifest IH]; intros services Hold Hnew; cbn [fold_left].
  - exact Hold.
  - apply IH.
    + apply dict_set_Forall; [exact Hold | apply Hnew; now left].
    + intros e' Hin. apply Hnew. now right.
Qed.

Lemma loaded_keys (base : string) (manifest : list json) (services : dict) :
  NoDup (keys services) ->
  NoDup (keys (fold_left (fun t e => dict_set (toolName e) (with_endpoint base e) t)
                 manifest services)) /\
  (length (fold_left (fun t e => dict_set (toolName e) (with_endpoint base e) t)
             manifest services)
   <= length services + length manifest)%nat.
Proof.
  revert services.
  induction manifest as [|e manifest IH]; intros services Hnd; cbn [fold_left].
  - split; [exact Hnd | simpl; lia].
  - destruct (IH (dict_set (toolName e) (with_endpoint base e) services)
                (dict_set_NoDup _ _ _ Hnd)) as [Hkeys Hlen].
    split; [exact Hkeys|].
    pose proof (dict_set_length (toolName e) (with_endpoint base e) services).
    simpl. lia.
Qed.

Lemma last_named_In (name : string) (manifest : list json) (e : json) :
  last_named name manifest = Some e -> In e manifest /\ toolName e = name.
Proof.
  unfold last_named. intros Hfind. apply find_some in Hfind.
  destruct Hfind as [Hin Heq]. split.
  - now apply in_rev.
  - now apply String.eqb_eq.
Qed.

Lemma last_named_None (name : string) (manifest : list json) :
  last_named name manifest = None <-> ~ In name (map toolName manifest).
Proof.
  unfold last_named. split.
  - intros Hnone Hin. apply in_map_iff in Hin. destruct Hin as (e & Heq & Hin).
    pose proof (find_none _ _ Hnone e (proj1 (in_rev manifest e) Hin)) as Hfalse.
    cbn beta in Hfalse. rewrite Heq, String.eqb_refl in Hfalse. discriminate.
  - intros Hnotin. destruct (find _ (rev manifest)) as [e|] eqn:Hfind; [|reflexivity].
    apply find_some in Hfind. destruct Hfind as [Hin Heq]. exfalso. apply Hnotin.
    apply String.eqb_eq in Heq. rewrite <- Heq. apply in_map. now apply in_rev.
Qed.

(** X5.  The OpenAI adapter keeps one service per tool name: when entries
    of a manifest share a [service_id], the last of them is the one the
    table holds (so the table can be shorter than the manifest), while
    [discover_d3p_tools] still returns a tool for every entry.  A stored
    service has every field of its entry, and its [_endpoint] is the
    resolved endpoint, also when the entry brings an [_endpoint] of its
    own. *)
Theorem openai_duplicate_ids_last_wins (manifest : list json) (base : string)
    (mock : bool) :
  Forall (fun e => wf_entry e = true) manifest ->
  (exists services,
      OpenAI.load_services base [] manifest = Ok services /\
      NoDup (keys services) /\
      (length services <= length manifest)%nat /\
      (forall name,
          dict_get name services
          = match last_named name manifest with
            | Some e => Some (with_endpoint base e)
            | None => None
            end) /\
      (forall name svc,
          dict_get name services = Some svc ->
          exists e,
            In e manifest /\ name = "d3p_" ++ serviceId e /\
            field "_endpoint" svc = Some (JStr (resolvedEndpoint base e)) /\
            forall k, k <> "_endpoint" -> field k svc = field k e)) /\
  (exists tools,
      CrewAI.tools_of manifest mock base = Ok tools /\
      map CrewAI.name tools = map (fun e => "d3p_" ++ serviceId e) manifest).
Proof.
  intros Hwf. split.
  - eexists. split; [apply (openai_load_fold base manifest [] Hwf)|].
    destruct (loaded_keys base manifest [] (NoDup_nil _)) as [Hkeys Hlen].
    split; [exact Hkeys|]. split; [exact Hlen|]. split.
    + intros name. apply loaded_lookup.
    + intros name svc. rewrite loaded_lookup.
      destruct (last_named name manifest) as [e|] eqn:Hlast; [|discriminate].
      intros Hsvc. injection Hsvc as <-.
      destruct (last_named_In name manifest e Hlast) as [Hin Hname].
      exists e. split; [exact Hin|]. split; [now rewrite <- Hname|]. split.
      * apply endpoint_with_endpoint. rewrite Forall_forall in Hwf.
        specialize (Hwf e Hin). destruct e; try discriminate; reflexivity.
      * intros k Hk. now apply field_with_endpoint.
  - destruct (crewai_tools_of manifest mock base Hwf) as (tools & Htools & Hnames & _).
    exists tools. split; [exact Htools | exact Hnames].
Qed.

Lemma openai_duplicate_ids_last_wins_witness :
  exists services,
    OpenAI.load_services Example.baseUrl []
      [Example.bare;
       JObj [("service_id", JStr "echo"); ("endpoint", JStr "https://other.test/echo")]]
    = Ok services /\
    (length services <= 2)%nat /\
    dict_get "d3p_echo" services
    = Some (JObj [("service_id", JStr "echo");
                  ("endpoint", JStr "https://other.test/echo");
                  ("_endpoint", JStr "https://other.test/echo")]).
Proof.
  destruct (openai_duplicate_ids_last_wins
              [Example.bare;
               JObj [("service_id", JStr "echo");
                     ("endpoint", JStr "https://other.test/echo")]]
              Example.baseUrl true)
    as [(services & Hload & _ & Hlen & Hget & _) _].
  - constructor; [reflexivity | constructor; [reflexivity | constructor]].
  - exists services. split; [exact Hload|]. split; [exact Hlen|].
    apply (Hget "d3p_echo").
Defined.

Section MalformedManifests.
Context `{JsonLib}.

(** X6.  An entry without [service_id] makes discovery raise
    [KeyError('service_id')]: the entries before it are read, the adapter
    is not built, whatever comes after. *)
Theorem missing_service_id_aborts (good rest : list json) (d : dict)
    (base : string) (mock : bool) :
  Forall (fun e => wf_entry e = true) good ->
  dict_get "service_id" d = None ->
  (forall services,
      OpenAI.load_services base services (good ++ JObj d :: rest)
      = Raise (KeyError "service_id")) /\
  LangChain.tools_of (good ++ JObj d :: rest) mock base = Raise (KeyError "service_id") /\
  CrewAI.tools_of (good ++ JObj d :: rest) mock base = Raise (KeyError "service_id") /\
  (forall st,
      MCP.register_all base mock st (good ++ JObj d :: rest)
      = Raise (KeyError "service_id")).
Proof.
  intros Hwf Hmissing.
  induction Hwf as [|e good Hwf _ (IHo & IHl & IHc & IHm)]; simpl.
  - unfold LangChain.tools_of, CrewAI.tools_of. simpl.
    unfold OpenAI.add_service, MCP.register_service, py_getitem.
    rewrite Hmissing. repeat split; intros; reflexivity.
  - repeat split.
    + intros services. rewrite (openai_add_service base services e Hwf). apply IHo.
    + unfold LangChain.tools_of in *. simpl.
      rewrite (wf_getitem_service_id e Hwf). cbn [bind].
      now rewrite (langchain_build e mock base Hwf), IHl.
    + unfold CrewAI.tools_of in *. simpl.
      rewrite (wf_getitem_service_id e Hwf). cbn [bind].
      now rewrite (crewai_build e mock base Hwf), IHc.
    + intros st. rewrite (mcp_register_service base mock st e Hwf). apply IHm.
Qed.

(** X7.  When the [services] of the manifest is not a list, discovery
    iterates over it all the same: an empty object or string gives an
    adapter with no tool and no error; [null], a number, a boolean, a
    non-empty string or a non-empty object give [TypeError]. *)
Theorem services_not_a_list (v : json) (url base : string) (mock : bool)
    (net : network) (log : list request) :
  fst (_fetch_manifest url net log) = Ok v ->
  (v = JObj [] \/ v = JStr EmptyString ->
   fst (OpenAI.init url base mock net log)
   = Ok {| OpenAI.base_url := base; OpenAI.mock_payments := mock;
           OpenAI._services := [] |} /\
   fst (LangChain.from_manifest url mock base net log) = Ok [] /\
   fst (CrewAI.discover_d3p_tools url mock base net log) = Ok [] /\
   fst (MCP.import url base mock net log)
   = Ok {| MCP._services := []; MCP.mcp_tools := [] |}) /\
  ((forall l, v <> JArr l) -> v <> JObj [] -> v <> JStr EmptyString ->
   fst (OpenAI.init url base mock net log) = Raise TypeError /\
   fst (LangChain.from_manifest url mock base net log) = Raise TypeError /\
   fst (CrewAI.discover_d3p_tools url mock base net log) = Raise TypeError /\
   fst (MCP.import url base mock net log) = Raise TypeError).
Proof.
  intros Hfetch.
  rewrite openai_init_after_fetch, langchain_from_manifest_after_fetch,
    crewai_discover_after_fetch, mcp_import_after_fetch.
  cbn [fst]. rewrite Hfetch. cbn [bind]. split.
  - intros [-> | ->]; repeat split.
  - intros Hlist Hobj Hstr.
    destruct v as [|b|z|s|l|d]; try (repeat split; fail).
    + destruct s as [|c s]; [congruence|]. repeat split.
    + elim (Hlist l). reflexivity.
    + destruct d as [|[k x] d]; [congruence|]. repeat split.
Qed.

End MalformedManifests.

Lemma missing_service_id_aborts_witness :
  @LangChain.tools_of [Example.entry; JObj [("name", JStr "Echo")]; Example.bare]
    true Example.baseUrl
  = Raise (KeyError "service_id").
Proof.
  refine (proj1 (proj2 (@missing_service_id_aborts RefJson.lib
                          [Example.entry] [Example.bare]
                          [("name", JStr "Echo")] Example.baseUrl true _ eq_refl))).
  constructor; [exact eq_refl | constructor].
Defined.

Lemma services_not_a_list_witness :
  fst (@LangChain.from_manifest RefJson.lib Example.manifestUrl true Example.baseUrl
         (fun _ _ => Answer {| status_code := 200;
                               text := RefJson.dq "{'services': {}}" |}) [])
  = Ok [].
Proof.
  apply (proj1 (@services_not_a_list RefJson.lib (JObj []) Example.manifestUrl
                  Example.baseUrl true
                  (fun _ _ => Answer {| status_code := 200;
                                        text := RefJson.dq "{'services': {}}" |})
                  [] eq_refl)).
  now left.
Defined.

(* ===================================================================== *)
(** ** Further properties: answers and tools *)
(* ===================================================================== *)

Lemma slice_to_min (n : nat) (s : string) :
  String.length (slice_to n s) = Nat.min n (String.length s).
Proof.
  unfold slice_to. revert s.
  induction n as [|n IH]; intros [|c s]; simpl; try reflexivity.
  now rewrite IH.
Qed.

Lemma slice_to_split (n : nat) (s : string) :
  exists rest, s = slice_to n s ++ rest.
Proof.
  unfold slice_to. revert s.
  induction n as [|n IH]; intros [|c s]; simpl.
  - now exists EmptyString.
  - now exists (String c s).
  - now exists EmptyString.
  - destruct (IH s) as (rest & Hrest). exists rest. now rewrite <- Hrest.
Qed.

Section AnswerProperties.
Context `{JsonLib}.

(** X8.  When the body of the answer does not decode, a tool returns the
    text itself if it has at most 500 characters, and otherwise its first
    500 characters exactly: the returned string has
    [min 500 (len(text))] characters and the text starts with it.  This
    holds for every status but a 402 in live mode, errors of the server
    included. *)
Theorem undecodable_body_truncated (self : LangChain.D3PTool) (payload : string)
    (data : json) (net : network) (log : list request) (resp : response) :
  json_loads payload = Some data ->
  net log (dispatch_request (LangChain.endpoint self) data (LangChain.mock_payments self))
  = Answer resp ->
  (status_code resp =? 402) && negb (LangChain.mock_payments self) = false ->
  json_loads (text resp) = None ->
  exists out rest,
    fst (LangChain._run self payload net log) = Ok out /\
    String.length out = Nat.min 500 (String.length (text resp)) /\
    text resp = out ++ rest /\
    ((String.length (text resp) <= 500)%nat -> out = text resp).
Proof.
  intros Hargs Hnet Hstatus Hbody.
  destruct (slice_to_split 500 (text resp)) as (rest & Hrest).
  exists (slice_to 500 (text resp)), rest.
  rewrite (langchain_run_answer self payload data net log resp Hargs Hnet), Hstatus.
  unfold passed_through. rewrite Hbody.
  split; [reflexivity|]. split; [apply slice_to_min|].
  split; [exact Hrest | apply slice_to_short].
Qed.

End AnswerProperties.

Lemma undecodable_body_truncated_witness :
  exists out rest,
    fst (@LangChain._run RefJson.lib (Example.tool true) (RefJson.dq "{'currency':'usd'}")
           (Example.remote 502 "Bad Gateway") []) = Ok out /\
    String.length out = 11%nat /\
    "Bad Gateway" = out ++ rest.
Proof.
  destruct (@undecodable_body_truncated RefJson.lib (Example.tool true)
              (RefJson.dq "{'currency':'usd'}") (JObj [("currency", JStr "usd")])
              (Example.remote 502 "Bad Gateway") []
              {| status_code := 502; text := "Bad Gateway" |}
              eq_refl eq_refl eq_refl eq_refl)
    as (out & rest & Hout & Hlen & Hsplit & _).
  exists out, rest. repeat split; assumption.
Defined.

(** The answer of [execute] to a name that is not a key of the table. *)
Lemma unknown_function_result `{JsonLib} (self : OpenAI.D3POpenAI)
    (name arguments : string) (net : network) (log : list request) :
  dict_get name (OpenAI._services self) = None ->
  OpenAI.execute self name arguments net log
  = (Ok (json_dumps (error_body ("Unknown function: " ++ name))), log).
Proof. intros Hnone. unfold OpenAI.execute. now rewrite Hnone. Qed.

Section RegistrationProperties.
Context `{JsonLib}.

Lemma mcp_register_all_tools (base : string) (mock : bool) (manifest : list json)
    (st : MCP.module_state) :
  Forall (fun e => wf_entry e = true) manifest ->
  exists st',
    MCP.register_all base mock st manifest = Ok st' /\
    MCP.mcp_tools st'
    = (MCP.mcp_tools st
         ++ map (fun e =>
                   {| MCP.tool_name := toolName e;
                      MCP.tool_description := summary e;
                      MCP.tool_fn :=
                        MCP._make_tool mock (JStr (serviceId e))
                          (resolvedEndpoint base e) (JNum (priceSats e))
                          (summary e) (param_doc e) |}) manifest)%list.
Proof.
  intros Hwf. revert st.
  induction Hwf as [|e manifest Hwf _ IH]; intros st; simpl.
  - exists st. now rewrite app_nil_r.
  - rewrite (mcp_register_service base mock st e Hwf). cbn [bind].
    destruct (IH {| MCP._services :=
                      table_set (JStr (serviceId e)) (with_endpoint base e)
                        (MCP._services st);
                    MCP.mcp_tools :=
                      (MCP.mcp_tools st ++
                         [{| MCP.tool_name := toolName e;
                             MCP.tool_description := summary e;
                             MCP.tool_fn :=
                               MCP._make_tool mock (JStr (serviceId e))
                                 (resolvedEndpoint base e) (JNum (priceSats e))
                                 (summary e) (param_doc e) |}])%list |})
      as (st' & Hrun & Htools).
    exists st'. split; [exact Hrun|]. rewrite Htools. cbn [MCP.mcp_tools].
    now rewrite <- app_assoc.
Qed.

(** X10.  Importing the MCP server on a manifest whose identifiers are
    distinct registers one tool per entry, in order, under distinct names.
    Each tool is bound to its own entry, not to the last one of the loop:
    it is registered and named "d3p_" followed by the identifier, described
    by the summary of the entry, it sends its request to the resolved
    endpoint of that entry, and in live mode a 402 makes it ask for the
    price of that entry. *)
Theorem mcp_registers_every_entry (manifest : list json) (url base : string)
    (mock : bool) (net : network) (log : list request) :
  Forall (fun e => wf_entry e = true) manifest ->
  NoDup (map serviceId manifest) ->
  fst (_fetch_manifest url net log) = Ok (JArr manifest) ->
  exists st,
    fst (MCP.import url base mock net log) = Ok st /\
    Forall2
      (fun tool e =>
         MCP.tool_name tool = "d3p_" ++ serviceId e /\
         MCP.__name__ (MCP.tool_fn tool) = "d3p_" ++ serviceId e /\
         MCP.tool_description tool
         = str_field_or "description" EmptyString e ++ " [" ++ category e ++ ", "
             ++ string_of_Z (priceSats e) ++ " sats]" /\
         (forall params net' log',
             sent (MCP.call (MCP.tool_fn tool) params) net' log'
             = match json_loads params with
               | Some data => [dispatch_request (resolvedEndpoint base e) data mock]
               | None => []
               end) /\
         (forall params data net' log' resp,
             mock = false ->
             json_loads params = Some data ->
             net' log' (dispatch_request (resolvedEndpoint base e) data false)
             = Answer resp ->
             status_code resp = 402 ->
             fst (MCP.call (MCP.tool_fn tool) params net' log')
             = Ok (json_dumps
                     (JObj [("error", JStr "L402 payment required");
                            ("status", JNum 402);
                            ("message",
                             JStr ("Service requires " ++ string_of_Z (priceSats e)
                                     ++ " sats via Lightning"))]))))
      (MCP.mcp_tools st) manifest /\
    NoDup (map MCP.tool_name (MCP.mcp_tools st)).
Proof.
  intros Hwf Hnd Hfetch.
  destruct (mcp_register_all_tools base mock manifest
              {| MCP._services := []; MCP.mcp_tools := [] |} Hwf)
    as (st & Hrun & Htools).
  exists st. split.
  { rewrite mcp_import_after_fetch. cbn [fst]. rewrite Hfetch. exact Hrun. }
  rewrite Htools. cbn [MCP.mcp_tools app]. split.
  2:{ rewrite map_map. cbn [MCP.tool_name]. now apply NoDup_toolName. }
  clear.
  induction manifest as [|e manifest IH]; cbn [map]; constructor; [|exact IH].
  cbn [MCP.tool_name MCP.tool_fn MCP.tool_description].
  split; [reflexivity|]. split; [reflexivity|]. split; [reflexivity|]. split.
  - intros params net' log'.
    apply (proj2 (proj2 (proj2 (dispatch_sends_decoded_arguments net' log')))).
  - intros params data net' log' resp -> Hargs Hnet Hstatus.
    rewrite (mcp_tool_answer false _ _ _ _ _ params data net' log' resp Hargs Hnet).
    now rewrite Hstatus.
Qed.

(** X11.  The tools the OpenAI adapter advertises are the functions it
    executes.  After loading a manifest, the names in [tool_definitions]
    are the keys of the table, the "d3p_" names of the entries; [execute]
    answers "Unknown function" for every other name and sends nothing; for
    an advertised name it sends the decoded arguments to the endpoint of
    the last entry of that name. *)
Theorem advertised_tools_are_executed (manifest : list json) (base : string)
    (mock : bool) :
  Forall (fun e => wf_entry e = true) manifest ->
  exists services defs,
    OpenAI.load_services base [] manifest = Ok services /\
    OpenAI.tool_definitions
      {| OpenAI.base_url := base; OpenAI.mock_payments := mock;
         OpenAI._services := services |} = Ok defs /\
    map definition_name defs = map Some (keys services) /\
    (forall name, In name (keys services)
                  <-> In name (map (fun e => "d3p_" ++ serviceId e) manifest)) /\
    (forall name arguments net log,
        ~ In name (keys services) ->
        OpenAI.execute
          {| OpenAI.base_url := base; OpenAI.mock_payments := mock;
             OpenAI._services := services |} name arguments net log
        = (Ok (json_dumps (error_body ("Unknown function: " ++ name))), log)) /\
    (forall name arguments data net log,
        In name (keys services) ->
        json_loads arguments = Some data ->
        exists e,
          last_named name manifest = Some e /\
          sent (OpenAI.execute
                  {| OpenAI.base_url := base; OpenAI.mock_payments := mock;
                     OpenAI._services := services |} name arguments) net log
          = [dispatch_request (resolvedEndpoint base e) data mock]).
Proof.
  intros Hwf.
  set (services := fold_left
                     (fun t e => dict_set (toolName e) (with_endpoint base e) t)
                     manifest []).
  assert (Hvalues : Forall (fun kv => wf_entry (snd kv) = true) services).
  { apply loaded_invariant; [constructor|].
    intros e Hin. apply wf_with_endpoint. rewrite Forall_forall in Hwf. auto. }
  assert (Hget : forall name,
             dict_get name services
             = match last_named name manifest with
               | Some e => Some (with_endpoint base e)
               | None => None
               end).
  { intros name. apply loaded_lookup. }
  assert (Hkeys : forall name, In name (keys services)
                               <-> In name (map toolName manifest)).
  { intros name. specialize (Hget name).
    destruct (last_named name manifest) as [e|] eqn:Hlast.
    - destruct (last_named_In name manifest e Hlast) as [Hin <-]. split; intros _.
      + now apply in_map.
      + destruct (in_dec string_dec (toolName e) (keys services)) as [Hk|Hk];
          [exact Hk|].
        apply dict_get_None_keys in Hk. congruence.
    - pose proof (proj1 (dict_get_None_keys name services) Hget) as Hk.
      pose proof (proj1 (last_named_None name manifest) Hlast) as Hm.
      split; intros Hin; contradiction. }
  exists services. eexists.
  split; [apply (openai_load_fold base manifest [] Hwf)|].
  split.
  { unfold OpenAI.tool_definitions. cbn [OpenAI._services].
    apply (mapM_ok _
             (fun item =>
                JObj [("type", JStr "function");
                      ("function",
                       JObj [("name", JStr (fst item));
                             ("description",
                              JStr (str_field_or "description" EmptyString (snd item)
                                      ++ " [" ++ category (snd item) ++ ", "
                                      ++ string_of_Z (priceSats (snd item)) ++ " sats]"));
                             ("parameters",
                              JObj [("type", JStr "object");
                                    ("properties", JObj (properties (snd item)));
                                    ("required",
                                     JArr (map JStr (keys (properties (snd item)))))])])])).
    intros item Hin. apply openai_tool_definition.
    rewrite Forall_forall in Hvalues. auto. }
  split.
  { unfold keys. rewrite !map_map. reflexivity. }
  split; [exact Hkeys|]. split.
  - intros name arguments net log Hnotin.
    apply unknown_function_result. now apply dict_get_None_keys.
  - intros name arguments data net log Hin Hargs.
    apply Hkeys in Hin. specialize (Hget name).
    destruct (last_named name manifest) as [e|] eqn:Hlast.
    2:{ apply last_named_None in Hlast. contradiction. }
    exists e. split; [reflexivity|].
    destruct (last_named_In name manifest e Hlast) as [Hine _].
    assert (Hwfe : wf_entry e = true) by (rewrite Forall_forall in Hwf; auto).
    rewrite (proj1 (proj1 (dispatch_sends_decoded_arguments net log) _ name arguments)).
    cbn [OpenAI._services OpenAI.mock_payments]. rewrite Hget, Hargs.
    rewrite (wf_entry_truthy _ (wf_with_endpoint base e Hwfe)).
    rewrite endpoint_with_endpoint; [reflexivity|].
    destruct e; try discriminate; reflexivity.
Qed.

End RegistrationProperties.

Lemma mcp_registers_every_entry_witness :
  exists st,
    fst (@MCP.import RefJson.lib Example.manifestUrl Example.baseUrl false
           (Example.serving Example.two_services_text 200 EmptyString) []) = Ok st /\
    map MCP.tool_name (MCP.mcp_tools st) = ["d3p_btc-price"; "d3p_eth-price"].
Proof.
  destruct (@mcp_registers_every_entry RefJson.lib [Example.entry; Example.second]
              Example.manifestUrl Example.baseUrl false
              (Example.serving Example.two_services_text 200 EmptyString) [])
    as (st & Himport & Htools & _).
  - constructor; [exact eq_refl | constructor; [exact eq_refl | constructor]].
  - constructor; [intros [Heq | []]; discriminate Heq
                 | constructor; [intros [] | constructor]].
  - reflexivity.
  - exists st. split; [exact Himport|].
    inversion Htools as [|tool e tools rest (Hname & _) Hrest]; subst.
    inversion Hrest as [|tool' e' tools' rest' (Hname' & _) Hrest']; subst.
    inversion Hrest'; subst. simpl. now rewrite Hname, Hname'.
Defined.

Lemma advertised_tools_are_executed_witness :
  exists services,
    OpenAI.load_services Example.baseUrl [] [Example.entry; Example.second]
    = Ok services /\
    @OpenAI.execute RefJson.lib
      {| OpenAI.base_url := Example.baseUrl; OpenAI.mock_payments := true;
         OpenAI._services := services |}
      "eth-price" (RefJson.dq "{'currency':'usd'}") (Example.remote 200 EmptyString) []
    = (Ok (RefJson.dq "{'error': 'Unknown function: eth-price'}"), []) /\
    sent (@OpenAI.execute RefJson.lib
            {| OpenAI.base_url := Example.baseUrl; OpenAI.mock_payments := true;
               OpenAI._services := services |}
            "d3p_eth-price" (RefJson.dq "{'currency':'usd'}"))
      (Example.remote 200 EmptyString) []
    = [dispatch_request "https://eth.example.test/price"
         (JObj [("currency", JStr "usd")]) true].
Proof.
  destruct (@advertised_tools_are_executed RefJson.lib [Example.entry; Example.second]
              Example.baseUrl true)
    as (services & defs & Hload & _ & _ & Hkeys & Hunknown & Hknown).
  - constructor; [exact eq_refl | constructor; [exact eq_refl | constructor]].
  - exists services. split; [exact Hload|]. split.
    + apply (Hunknown "eth-price"). rewrite Hkeys. simpl.
      intros [Heq | [Heq | []]]; discriminate Heq.
    + destruct (Hknown "d3p_eth-price" (RefJson.dq "{'currency':'usd'}")
                  (JObj [("currency", JStr "usd")])
                  (Example.remote 200 EmptyString) [])
        as (e & Hlast & Hsent).
      * rewrite Hkeys. simpl. right. now left.
      * reflexivity.
      * injection Hlast as <-. exact Hsent.
Defined.

(* ===================================================================== *)
(** ** Further properties: configuration and construction *)
(* ===================================================================== *)

Ltac by_cases_on_char c :=
  destruct c as [[] [] [] [] [] [] [] []]; vm_compute;
  (split; [intros Heq; first [discriminate Heq | now left | now right]
          | intros [Heq|Heq]; first [discriminate Heq | reflexivity]]).

Lemma lower_char_f (c : ascii) :
  lower_char c = "f"%char <-> c = "f"%char \/ c = "F"%char.
Proof. by_cases_on_char c. Qed.

Lemma lower_char_a (c : ascii) :
  lower_char c = "a"%char <-> c = "a"%char \/ c = "A"%char.
Proof. by_cases_on_char c. Qed.

Lemma lower_char_l (c : ascii) :
  lower_char c = "l"%char <-> c = "l"%char \/ c = "L"%char.
Proof. by_cases_on_char c. Qed.

Lemma lower_char_s (c : ascii) :
  lower_char c = "s"%char <-> c = "s"%char \/ c = "S"%char.
Proof. by_cases_on_char c. Qed.

Lemma lower_char_e (c : ascii) :
  lower_char c = "e"%char <-> c = "e"%char \/ c = "E"%char.
Proof. by_cases_on_char c. Qed.

(** X12.  The MCP server runs with live payments only when the variable
    [D3P_MOCK_PAYMENTS] is set to "false", in any mix of upper and lower
    case; unset, empty, or set to anything else ("0", "no", "off") it runs
    in mock mode. *)
Theorem mock_payments_from_env (env : environ) :
  (env "D3P_MOCK_PAYMENTS" = None -> McpConfig.MOCK_PAYMENTS env = true) /\
  (McpConfig.MOCK_PAYMENTS env = false <->
   exists f a l s e,
     env "D3P_MOCK_PAYMENTS"
     = Some (String f (String a (String l (String s (String e EmptyString))))) /\
     (f = "f" \/ f = "F")%char /\ (a = "a" \/ a = "A")%char /\
     (l = "l" \/ l = "L")%char /\ (s = "s" \/ s = "S")%char /\
     (e = "e" \/ e = "E")%char).
Proof.
  unfold McpConfig.MOCK_PAYMENTS, environ_get.
  destruct (env "D3P_MOCK_PAYMENTS") as [v|].
  2:{ split; [reflexivity|]. split; [discriminate|].
      intros (f & a & l & s & e & Hnone & _). discriminate. }
  split; [discriminate|].
  rewrite negb_false_iff, String.eqb_eq. split.
  - destruct v as [|f [|a [|l [|s [|e [|x v]]]]]]; simpl; try discriminate.
    intros Heq. injection Heq as Hf Ha Hl Hs He.
    exists f, a, l, s, e. split; [reflexivity|].
    rewrite <- lower_char_f, <- lower_char_a, <- lower_char_l, <- lower_char_s,
      <- lower_char_e.
    repeat split; assumption.
  - intros (f & a & l & s & e & Heq & Hf & Ha & Hl & Hs & He).
    injection Heq as ->. simpl.
    apply lower_char_f in Hf. apply lower_char_a in Ha. apply lower_char_l in Hl.
    apply lower_char_s in Hs. apply lower_char_e in He.
    now rewrite Hf, Ha, Hl, Hs, He.
Qed.

Lemma mock_payments_from_env_witness :
  McpConfig.MOCK_PAYMENTS
    (fun k => if (k =? "D3P_MOCK_PAYMENTS")%string then Some "False" else None)
  = false.
Proof.
  apply (proj2 (proj2 (mock_payments_from_env
                         (fun k => if (k =? "D3P_MOCK_PAYMENTS")%string
                                   then Some "False" else None)))).
  exists "F"%char, "a"%char, "l"%char, "s"%char, "e"%char.
  repeat split; auto.
Defined.

(** X13.  The constructor of a tool takes the identifier from its argument
    and never reads the [service_id] of the entry.  Without an entry, or
    with an empty one, it builds the tool of the conventional endpoint
    "/api/services/<id>" under the base URL, with price 0 and the
    placeholder description. *)
Theorem tool_from_the_argument :
  (forall sid mock base,
      LangChain.D3PTool_init (JStr sid) None mock base
      = Ok {| LangChain.name := "d3p_" ++ sid;
              LangChain.description :=
                ("Call the " ++ sid ++ " d3p service")
                  ++ " [, 0 sats]. Input fields: see docs. Pass a JSON string as payload.";
              LangChain.service_id := sid;
              LangChain.endpoint := base ++ "/api/services/" ++ sid;
              LangChain.pricing_sats := 0;
              LangChain.mock_payments := mock;
              LangChain.base_url := base;
              LangChain.service_schema := JObj [] |}) /\
  (forall service_id mock base,
      LangChain.D3PTool_init service_id (Some (JObj [])) mock base
      = LangChain.D3PTool_init service_id None mock base) /\
  (forall service_id v d mock base,
      LangChain.D3PTool_init service_id (Some (JObj (dict_set "service_id" v d))) mock base
      = LangChain.D3PTool_init service_id (Some (JObj d)) mock base).
Proof.
  split; [reflexivity|]. split; [reflexivity|].
  intros service_id v d mock base.
  assert (Hsvc : forall k default,
             k <> "service_id" ->
             py_get (entry_or_empty (Some (JObj (dict_set "service_id" v d)))) k default
             = py_get (entry_or_empty (Some (JObj d))) k default).
  { intros k default Hk. destruct d as [|[k0 v0] d].
    - simpl. destruct (String.eqb_spec k "service_id"); [contradiction | reflexivity].
    - replace (entry_or_empty (Some (JObj (dict_set "service_id" v ((k0, v0) :: d)))))
        with (JObj (dict_set "service_id" v ((k0, v0) :: d)))
        by (cbn [dict_set]; destruct ("service_id" =? k0)%string; reflexivity).
      cbn [entry_or_empty truthy py_get].
      now rewrite (dict_get_set_other k "service_id" v ((k0, v0) :: d) Hk). }
  unfold LangChain.D3PTool_init, pricing_sats_of.
  now rewrite !Hsvc by discriminate.
Qed.

Lemma append_assoc (a b c : string) : (a ++ b) ++ c = a ++ b ++ c.
Proof. induction a as [|x a IH]; simpl; [reflexivity | now rewrite IH]. Qed.

(** X14.  The adapters present a service alike.  For an entry of the
    manifest, the OpenAI tool definition and the call that registers the
    MCP tool carry the same name and the same description (description,
    category and price of the entry), and the LangChain tool is built with
    that name too; when the entry has a description, the description the
    LangChain tool is built with starts with the same summary, followed by
    the input fields. *)
Theorem adapters_describe_alike `{JsonLib} (e : json) (base : string) (mock : bool)
    (st : MCP.module_state) :
  wf_entry e = true ->
  exists def function st' registered tool,
    OpenAI.tool_definition ("d3p_" ++ serviceId e) (with_endpoint base e) = Ok def /\
    field "function" def = Some function /\
    MCP.register_service base mock st e = Ok st' /\
    MCP.mcp_tools st' = (MCP.mcp_tools st ++ [registered])%list /\
    LangChain.D3PTool_init (JStr (serviceId e)) (Some e) mock base = Ok tool /\
    field "name" function = Some (JStr (MCP.tool_name registered)) /\
    field "description" function = Some (JStr (MCP.tool_description registered)) /\
    LangChain.name tool = MCP.tool_name registered /\
    (field "description" e <> None ->
     LangChain.description tool
     = MCP.tool_description registered ++ ". Input fields: "
         ++ str_or (input_fields e) "see docs" ++ ". Pass a JSON string as payload.").
Proof.
  intros Hwf. do 5 eexists.
  split; [apply (openai_tool_definition _ _ (wf_with_endpoint base e Hwf))|].
  split; [reflexivity|].
  split; [apply (mcp_register_service base mock st e Hwf)|].
  split; [reflexivity|].
  split; [apply (langchain_build e mock base Hwf)|].
  cbn [MCP.tool_name MCP.tool_description LangChain.name LangChain.description].
  rewrite str_field_or_with_endpoint by discriminate.
  rewrite category_with_endpoint, priceSats_with_endpoint.
  repeat split.
  intros Hdesc.
  destruct (wf_entry_fields e Hwf) as (d & sid & -> & _ & _ & _ & Hty & _).
  unfold summary, str_field_or, str_field, field in *.
  destruct (dict_get "description" d) as [[| | |text| |]|];
    try discriminate; [|congruence].
  rewrite !append_assoc. reflexivity.
Qed.

Lemma adapters_describe_alike_witness :
  exists def function,
    OpenAI.tool_definition "d3p_eth-price" (with_endpoint Example.baseUrl Example.second)
    = Ok def /\
    field "function" def = Some function /\
    field "name" function = Some (JStr "d3p_eth-price") /\
    field "description" function = Some (JStr "Ether spot price [market, 7 sats]").
Proof.
  destruct (@adapters_describe_alike RefJson.lib Example.second Example.baseUrl true
              {| MCP._services := []; MCP.mcp_tools := [] |} eq_refl)
    as (def & function & st' & registered & tool
        & Hdef & Hfn & Hreg & Htools & _ & Hname & Hdesc & _).
  exists def, function. split; [exact Hdef|]. split; [exact Hfn|].
  assert (Hregistered : MCP.tool_name registered = "d3p_eth-price"
                        /\ MCP.tool_description registered
                           = "Ether spot price [market, 7 sats]").
  { injection Hreg as <-. cbn [MCP.mcp_tools app] in Htools.
    injection Htools as <-. split; reflexivity. }
  destruct Hregistered as [Hn Hd]. rewrite Hname, Hdesc, Hn, Hd. split; reflexivity.
Defined.

(** X15.  The handlers of the dispatchers catch [JSONDecodeError] and
    nothing else: when [json.loads] raises another exception on the
    arguments (a [RecursionError] on a text nested too deep, a [ValueError]
    on an integer literal over the digit limit), the dispatch raises it,
    and sends nothing. *)
Theorem other_decode_exception_escapes `{JsonLib} (arguments : string) (e : exn) :
  json_decode arguments = Raise e ->
  e <> JSONDecodeError ->
  (forall (tool : LangChain.D3PTool) net log,
      LangChain._run tool arguments net log = (Raise e, log)) /\
  (forall (tool : CrewAI.D3PServiceTool) net log,
      CrewAI._run tool arguments net log = (Raise e, log)) /\
  (forall (self : OpenAI.D3POpenAI) function_name svc net log,
      dict_get function_name (OpenAI._services self) = Some svc ->
      truthy svc = true ->
      OpenAI.execute self function_name arguments net log = (Raise e, log)) /\
  (forall mock sid endpoint sats desc param_doc net log,
      MCP.call (MCP._make_tool mock sid endpoint sats desc param_doc) arguments net log
      = (Raise e, log)).
Proof.
  intros Hraise Hother. repeat split; intros.
  - unfold LangChain._run. rewrite Hraise.
    destruct e; try reflexivity. now elim Hother.
  - unfold CrewAI._run. rewrite Hraise.
    destruct e; try reflexivity. now elim Hother.
  - unfold OpenAI.execute.
    match goal with
    | Hs : dict_get _ _ = Some _, Ht : truthy _ = true |- _ => rewrite Hs, Ht
    end. simpl. rewrite Hraise.
    destruct e; try reflexivity. now elim Hother.
  - simpl. rewrite Hraise.
    destruct e; try reflexivity. now elim Hother.
Qed.

Lemma other_decode_exception_escapes_witness :
  @json_decode (RefJson.lib_with_limit 1000) (RefJson.replicate 2000 "["%char)
  = Raise RecursionError /\
  MCP.call (@MCP._make_tool (RefJson.lib_with_limit 1000) false (JStr "btc-price")
              "https://example.test/api/services/btc-price" (JNum 5)
              " [, 5 sats]" "currency: string")
    (RefJson.replicate 2000 "["%char) (Example.remote 200 EmptyString) []
  = (Raise RecursionError, []).
Proof.
  split; [vm_compute; reflexivity|].
  refine (proj2 (proj2 (proj2
            (@other_decode_exception_escapes (RefJson.lib_with_limit 1000)
               (RefJson.replicate 2000 "["%char) RecursionError _ _)))
            false (JStr "btc-price") "https://example.test/api/services/btc-price"
            (JNum 5) " [, 5 sats]" "currency: string"
            (Example.remote 200 EmptyString) []).
  - vm_compute. reflexivity.
  - discriminate.
Defined.
